(** * InhibitScreensaver: the inhibition requester and the process supervisor

    A shallow embedding of [main.c].  The program is a straight line of
    library and system calls, so the embedding is a small state monad over
    the process state (the three global variables, [errno], the two locals
    of [main] that are written through a pointer) together with a trace of
    every external call the program makes.  Everything the program cannot
    decide itself (environment, argument vector, what the bus answers, what
    the kernel reports about the child) is gathered in a [world] record. *)

From Stdlib Require Import ZArith List String Ascii Bool Lia DecimalString.
Import ListNotations.

Open Scope string_scope.
Open Scope list_scope.
Open Scope Z_scope.

(** A [char *] that may be [NULL]. *)
Definition cstr := option string.

(** The newline character of the C string literals. *)
Definition nl : string := String (ascii_of_nat 10) EmptyString.

Infix "+++" := String.append (at level 60, right associativity).

(** [printf]'s [%s]: glibc prints a null pointer as [(null)]. *)
Definition fmt_s (p : cstr) : string :=
  match p with
  | Some s => s
  | None => "(null)"
  end.

(** [printf]'s [%d]. *)
Definition fmt_d (n : Z) : string := NilZero.string_of_int (Z.to_int n).

(** ** <sys/wait.h>

    The status word is decoded with the glibc macros (the program uses
    [TEMP_FAILURE_RETRY], which only glibc provides).  [W_encode] is the
    kernel's side of the same word. *)
Module Wait.

Definition WNOHANG : Z := 1.

(** [__WTERMSIG(status)  ((status) & 0x7f)] *)
Definition WTERMSIG (status : Z) : Z := Z.land status 127.

(** [__WEXITSTATUS(status)  (((status) & 0xff00) >> 8)] *)
Definition WEXITSTATUS (status : Z) : Z := Z.shiftr (Z.land status 65280) 8.

(** [__WIFEXITED(status)  (__WTERMSIG(status) == 0)] *)
Definition WIFEXITED (status : Z) : bool := WTERMSIG status =? 0.

(** The conversion to [signed char] of a value in [0, 256). *)
Definition signed_char (n : Z) : Z := if n <? 128 then n else n - 256.

(** [__WIFSIGNALED(status)
      (((signed char) (((status) & 0x7f) + 1) >> 1) > 0)] *)
Definition WIFSIGNALED (status : Z) : bool :=
  0 <? Z.shiftr (signed_char (Z.land status 127 + 1)) 1.

(** How a child can change state, as the kernel sees it. *)
Inductive termination : Type :=
| Exited (code : Z)
| Signaled (sig : Z) (core : bool)
| Stopped (sig : Z)
| Continued.

(** The status word the kernel stores for each of them
    ([__W_EXITCODE], [__W_STOPCODE], [__W_CONTINUED], [__WCOREFLAG]). *)
Definition W_encode (t : termination) : Z :=
  match t with
  | Exited code => Z.shiftl (Z.land code 255) 8
  | Signaled sig core => Z.lor sig (if core then 128 else 0)
  | Stopped sig => Z.lor (Z.shiftl sig 8) 127
  | Continued => 65535
  end.

(** Exit codes are bytes; signal numbers are 1..64 on Linux (anything
    up to 126 fits the encoding). *)
Definition valid (t : termination) : Prop :=
  match t with
  | Exited code => 0 <= code < 256
  | Signaled sig _ => 1 <= sig < 127
  | Stopped sig => 1 <= sig < 256
  | Continued => True
  end.

End Wait.

(** ** The message bus

    [sd_bus_call_method] takes a type string and a C variable argument
    list; [append] is the part of [sd_bus_message_append] this program
    exercises: strings, unsigned 32-bit integers, variants holding one of
    those, and arrays of string-to-variant dictionary entries. *)
Module DBus.

Inductive vararg : Type :=
| VaStr (p : cstr)
| VaInt (n : Z).

#[local] Set Warnings "-register-all".
Inductive value : Type :=
| String_ (s : string)
| Uint32 (n : Z)
| Variant (contents : string) (v : value)
| DictEntry (key val : value)
| Array (contents : string) (items : list value).

(** sd-bus serialises a null string as the empty string. *)
Definition strempty (p : cstr) : string :=
  match p with
  | Some s => s
  | None => EmptyString
  end.

Definition append_string (va : list vararg) : option (value * list vararg) :=
  match va with
  | VaStr p :: va' => Some (String_ (strempty p), va')
  | _ => None
  end.

Definition append_uint32 (va : list vararg) : option (value * list vararg) :=
  match va with
  | VaInt n :: va' => Some (Uint32 (n mod 2 ^ 32), va')
  | _ => None
  end.

(** A variant reads its own signature from the argument list first. *)
Definition append_variant (va : list vararg) : option (value * list vararg) :=
  match va with
  | VaStr (Some "s") :: va' =>
      match append_string va' with
      | Some (v, va'') => Some (Variant "s" v, va'')
      | None => None
      end
  | VaStr (Some "u") :: va' =>
      match append_uint32 va' with
      | Some (v, va'') => Some (Variant "u" v, va'')
      | None => None
      end
  | _ => None
  end.

(** [n] dictionary entries of type [{sv}]. *)
Fixpoint append_entries (n : nat) (va : list vararg)
  : option (list value * list vararg) :=
  match n with
  | O => Some ([], va)
  | S n' =>
      match append_string va with
      | None => None
      | Some (k, va1) =>
          match append_variant va1 with
          | None => None
          | Some (v, va2) =>
              match append_entries n' va2 with
              | None => None
              | Some (es, va3) => Some (DictEntry k v :: es, va3)
              end
          end
      end
  end.

(** An array reads its length from the argument list first. *)
Definition append_dict (va : list vararg) : option (value * list vararg) :=
  match va with
  | VaInt n :: va' =>
      match append_entries (Z.to_nat n) va' with
      | Some (es, va'') => Some (Array "{sv}" es, va'')
      | None => None
      end
  | _ => None
  end.

Definition cons_result (r : option (value * list vararg))
    (k : list vararg -> option (list value)) : option (list value) :=
  match r with
  | None => None
  | Some (v, va') =>
      match k va' with
      | None => None
      | Some vs => Some (v :: vs)
      end
  end.

(** Walk the type string; arguments left over are ignored, as in C. *)
Fixpoint append (types : string) (va : list vararg) : option (list value) :=
  match types with
  | EmptyString => Some []
  | String "s" types' => cons_result (append_string va) (append types')
  | String "u" types' => cons_result (append_uint32 va) (append types')
  | String "v" types' => cons_result (append_variant va) (append types')
  | String "a" (String "{" (String "s" (String "v" (String "}" types')))) =>
      cons_result (append_dict va) (append types')
  | _ => None
  end.

(** A method call as it goes out on the wire. *)
Record message : Type := mkMessage {
  destination : string;
  path : string;
  interface : string;
  member : string;
  signature : string;
  body : list value
}.

End DBus.

(** ** The world outside the program *)

(** What one look at the child yields while the process sleeps in
    [waitpid]: nothing yet, a state change with its status word, or a
    failure with its [errno] ([EINTR] when a signal handler ran). *)
Inductive wait_event : Type :=
| WNoChange
| WChanged (status : Z)
| WError (e : Z).

(** [posix_spawnp] yields a process identifier, or an error number; both
    are positive. *)
Inductive spawn_result : Type :=
| SpawnOk (pid : positive)
| SpawnFail (err : positive).

Definition EINTR : Z := 4.
Definition ECHILD : Z := 10.
Definition EINVAL : Z := 22.

Record world : Type := mkWorld {
  w_argv : list string;                       (* argv[0 .. argc-1] *)
  w_getenv : string -> cstr;                  (* the environment *)
  w_bus_open : Z * Z;                         (* sd_bus_open_user: result, handle *)
  w_bus_reply : DBus.message -> Z * cstr;     (* sd_bus_call: result, error.message *)
  w_signals : nat;                            (* signals caught while in pause() *)
  w_spawn : spawn_result;                     (* posix_spawnp *)
  w_wait : list wait_event;                   (* what waitpid gets to see, in order *)
  w_stack : Z * Z;                            (* indeterminate child_pid, wstatus *)
  w_strerror : Z -> string;
  w_strsignal : Z -> string
}.

(** Every call that leaves the program, and every write to the error
    stream, in the order they happen. *)
Inductive event : Type :=
| EvGetenv (name : string)
| EvBusOpen
| EvBusCall (bus : Z) (m : DBus.message)
| EvStderr (s : string)
| EvPause
| EvSpawn (file : cstr) (argv : list string)
| EvWait (pid options : Z).

(** ** Process state *)

Record state : Type := mkState {
  verbose_output : bool;          (* static bool verbose_output *)
  inhibit_reason : cstr;          (* static const char *inhibit_reason *)
  application : cstr;             (* static const char *application *)
  errno : Z;
  child_pid : Z;                  (* pid_t child_pid, in main *)
  wstatus : Z;                    (* int wstatus, in main *)
  signals : nat;                  (* signal deliveries still to come *)
  kernel : list wait_event;       (* wait events still to come *)
  trace : list event              (* oldest first *)
}.

(** Objects of static storage duration start out zeroed; the two locals
    hold whatever the stack held. *)
Definition initial (w : world) : state :=
  {| verbose_output := false;
     inhibit_reason := None;
     application := None;
     errno := 0;
     child_pid := fst (w_stack w);
     wstatus := snd (w_stack w);
     signals := w_signals w;
     kernel := w_wait w;
     trace := [] |}.

Definition set_verbose_output (b : bool) (st : state) : state :=
  mkState b (inhibit_reason st) (application st) (errno st) (child_pid st)
          (wstatus st) (signals st) (kernel st) (trace st).

Definition set_inhibit_reason (p : cstr) (st : state) : state :=
  mkState (verbose_output st) p (application st) (errno st) (child_pid st)
          (wstatus st) (signals st) (kernel st) (trace st).

Definition set_application (p : cstr) (st : state) : state :=
  mkState (verbose_output st) (inhibit_reason st) p (errno st) (child_pid st)
          (wstatus st) (signals st) (kernel st) (trace st).

Definition set_errno (e : Z) (st : state) : state :=
  mkState (verbose_output st) (inhibit_reason st) (application st) e
          (child_pid st) (wstatus st) (signals st) (kernel st) (trace st).

Definition set_child_pid (pid : Z) (st : state) : state :=
  mkState (verbose_output st) (inhibit_reason st) (application st) (errno st)
          pid (wstatus st) (signals st) (kernel st) (trace st).

Definition set_wstatus (s : Z) (st : state) : state :=
  mkState (verbose_output st) (inhibit_reason st) (application st) (errno st)
          (child_pid st) s (signals st) (kernel st) (trace st).

Definition set_signals (n : nat) (st : state) : state :=
  mkState (verbose_output st) (inhibit_reason st) (application st) (errno st)
          (child_pid st) (wstatus st) n (kernel st) (trace st).

Definition set_kernel (k : list wait_event) (st : state) : state :=
  mkState (verbose_output st) (inhibit_reason st) (application st) (errno st)
          (child_pid st) (wstatus st) (signals st) k (trace st).

Definition log (e : event) (st : state) : state :=
  mkState (verbose_output st) (inhibit_reason st) (application st) (errno st)
          (child_pid st) (wstatus st) (signals st) (kernel st) (trace st ++ [e]).

(** ** The monad

    A computation either delivers a value or is still [Pending]: asleep in
    a system call that has nothing to report, or in a loop that has used
    up the steps it was given.  The state it got to is kept either way. *)
Inductive outcome (A : Type) : Type :=
| Done (a : A)
| Pending.
Arguments Done {A} a.
Arguments Pending {A}.

Definition M (A : Type) : Type := state -> outcome A * state.

Definition pure {A} (a : A) : M A := fun st => (Done a, st).

Definition bind {A B} (m : M A) (k : A -> M B) : M B :=
  fun st =>
    match m st with
    | (Done a, st') => k a st'
    | (Pending, st') => (Pending, st')
    end.

Definition pending {A} : M A := fun st => (Pending, st).
Definition gets {A} (f : state -> A) : M A := fun st => (Done (f st), st).
Definition modify (f : state -> state) : M unit := fun st => (Done tt, f st).
Definition emit (e : event) : M unit := modify (log e).

Notation "x <- m ;; k" := (bind m (fun x => k))
  (at level 61, m at next level, right associativity).
Notation "m ;; k" := (bind m (fun _ => k))
  (at level 61, right associativity).

(** ** The program *)
Section Program.

Variable w : world.

(** *** Library and system calls *)

Definition getenv (name : string) : M cstr :=
  emit (EvGetenv name) ;; pure (w_getenv w name).

Definition fputs_stderr (s : string) : M unit := emit (EvStderr s).

(** [sd_bus_open_user(&bus)]: the result, and the handle stored in [bus]. *)
Definition sd_bus_open_user : M (Z * Z) :=
  emit EvBusOpen ;; pure (w_bus_open w).

(** [sd_bus_call_method(bus, destination, path, interface, member,
    &error, &msg, types, ...)]: the result and [error.message].  A
    message that cannot be built is not sent. *)
Definition sd_bus_call_method (bus : Z)
    (destination path interface member types : string)
    (va : list DBus.vararg) : M (Z * cstr) :=
  match DBus.append types va with
  | None => pure (- EINVAL, Some (w_strerror w EINVAL))
  | Some body =>
      let m := DBus.mkMessage destination path interface member types body in
      emit (EvBusCall bus m) ;; pure (w_bus_reply w m)
  end.

(** [pause()] sleeps until a signal handler has run, then fails with
    [EINTR]. *)
Definition pause : M Z :=
  emit EvPause ;;
  n <- gets signals ;;
  match n with
  | O => pending
  | S n' => modify (set_signals n') ;; modify (set_errno EINTR) ;; pure (-1)
  end.

(** [posix_spawnp(&child_pid, file, NULL, NULL, argv, environ)] *)
Definition posix_spawnp (file : cstr) (argv : list string) : M Z :=
  emit (EvSpawn file argv) ;;
  match w_spawn w with
  | SpawnOk pid => modify (set_child_pid (Zpos pid)) ;; pure 0
  | SpawnFail err => pure (Zpos err)
  end.

(** The kernel's half of [waitpid(pid, &wstatus, options)].  Without
    [WNOHANG] the call sleeps through [WNoChange]; with nothing more to
    come it sleeps for good. *)
Fixpoint wait4 (pid options : Z) (k : list wait_event) (st : state)
  : outcome Z * state :=
  match k with
  | [] => (Pending, set_kernel [] st)
  | WNoChange :: k' =>
      if Z.land options Wait.WNOHANG =? 0
      then wait4 pid options k' st
      else (Done 0, set_kernel k' st)
  | WChanged s :: k' => (Done pid, set_wstatus s (set_kernel k' st))
  | WError e :: k' => (Done (-1), set_errno e (set_kernel k' st))
  end.

Definition waitpid (pid options : Z) : M Z :=
  fun st => wait4 pid options (kernel st) (log (EvWait pid options) st).

(** [TEMP_FAILURE_RETRY(expression)]:
    [do result = (expression); while (result == -1L && errno == EINTR);]
    with [fuel] bounding the number of evaluations. *)
Fixpoint TEMP_FAILURE_RETRY (fuel : nat) (expression : M Z) : M Z :=
  match fuel with
  | O => pending
  | S fuel' =>
      result <- expression ;;
      e <- gets errno ;;
      if (result =? -1) && (e =? EINTR)
      then TEMP_FAILURE_RETRY fuel' expression
      else pure result
  end.

(** [while (true) body]: it has no exit, so all it can be is [Pending]. *)
Fixpoint forever {A} (fuel : nat) (body : M A) : M unit :=
  match fuel with
  | O => pending
  | S fuel' => body ;; forever fuel' body
  end.

(** *** main.c *)

Definition debug (s : string) : M unit :=
  v <- gets verbose_output ;;
  if v then fputs_stderr s else pure tt.

Definition inhibit_via_inhibit_portal (bus : Z) : M bool :=
  debug "Trying to inhibit idle via org.freedesktop.portal.Inhibit interface: " ;;
  reason <- gets inhibit_reason ;;
  r <- sd_bus_call_method bus
         "org.freedesktop.portal.Desktop" "/org/freedesktop/portal/desktop"
         "org.freedesktop.portal.Inhibit" "Inhibit" "sua{sv}"
         [DBus.VaStr (Some EmptyString); DBus.VaInt 8; DBus.VaInt 1;
          DBus.VaStr (Some "reason"); DBus.VaStr (Some "s");
          DBus.VaStr reason] ;;
  if fst r <? 0 then
    debug ("Failed." +++ nl) ;;
    fputs_stderr ("Failed to inhibit idle: " +++ fmt_s (snd r) +++ nl) ;;
    pure false
  else
    debug ("Ok." +++ nl) ;;
    pure true.

Definition inhibit_via_screen_saver (bus : Z) : M bool :=
  debug "Trying to inhibit screensaver via org.freedesktop.ScreenSaver interface: " ;;
  reason <- gets inhibit_reason ;;
  app <- gets application ;;
  r <- sd_bus_call_method bus
         "org.freedesktop.ScreenSaver" "/org/freedesktop/ScreenSaver"
         "org.freedesktop.ScreenSaver" "Inhibit" "ss"
         [DBus.VaStr reason; DBus.VaStr app] ;;
  if fst r <? 0 then
    debug ("Failed." +++ nl) ;;
    fputs_stderr ("Failed to inhibit screensaver: " +++ fmt_s (snd r) +++ nl) ;;
    pure false
  else
    debug ("Ok." +++ nl) ;;
    pure true.

Definition inhibit_via_power_management (bus : Z) : M bool :=
  debug "Trying to inhibit power management via org.freedesktop.PowerManagement.Inhibit interface: " ;;
  reason <- gets inhibit_reason ;;
  app <- gets application ;;
  r <- sd_bus_call_method bus
         "org.freedesktop.PowerManagement.Inhibit"
         "/org/freedesktop/PowerManagement/Inhibit"
         "org.freedesktop.PowerManagement.Inhibit" "Inhibit" "ss"
         [DBus.VaStr reason; DBus.VaStr app] ;;
  if fst r <? 0 then
    debug ("Failed." +++ nl) ;;
    fputs_stderr ("Failed to inhibit power saving: " +++ fmt_s (snd r) +++ nl) ;;
    pure false
  else
    debug ("Ok." +++ nl) ;;
    pure true.

Definition argc : Z := Z.of_nat (List.length (w_argv w)).

(** [argv[i]]; [argv[argc]] is the null pointer. *)
Definition argv (i : nat) : cstr := nth_error (w_argv w) i.

(** Lines 114 to 132 of [main]: what becomes of the result [rc] of the
    wait and of the status word in [wstatus]. *)
Definition main_after_wait (rc : Z) : M Z :=
  ws <- gets wstatus ;;
  if negb (rc =? 0) then
    if Wait.WIFEXITED ws then
      (if Wait.WEXITSTATUS ws =? 0
       then debug ("Child process exited normally" +++ nl)
       else fputs_stderr ("Child process exited with code "
                          +++ fmt_d (Wait.WEXITSTATUS ws) +++ nl)) ;;
      pure (Wait.WEXITSTATUS ws)
    else if Wait.WIFSIGNALED ws then
      fputs_stderr ("Child process killed by signal "
                    +++ w_strsignal w (Wait.WTERMSIG ws) +++ nl) ;;
      pure (Wait.WTERMSIG ws + 128)
    else
      fputs_stderr "Child process exited abnormally" ;;
      pure 127
  else
    fputs_stderr "Child process does not exist" ;;
    pure 1.

(** Lines 93 to 95 of [main]: the spec's [request_all_inhibitions].
    The three results are dropped. *)
Definition main_request_all_inhibitions (bus : Z) : M unit :=
  inhibit_via_inhibit_portal bus ;;
  inhibit_via_screen_saver bus ;;
  inhibit_via_power_management bus ;;
  pure tt.

(** Lines 103 to 132 of [main]: the spec's [run_and_wait]. *)
Definition main_run_and_wait (fuel : nat) : M Z :=
  debug "Starting process: " ;;
  spawned <- posix_spawnp (argv 1) (tl (w_argv w)) ;;
  if negb (spawned =? 0) then
    fputs_stderr ("Failed to start process: " +++ w_strerror w spawned +++ nl) ;;
    pure 1
  else
    debug ("OK" +++ nl) ;;
    pid <- gets child_pid ;;
    rc <- TEMP_FAILURE_RETRY fuel (waitpid pid 0) ;;
    main_after_wait rc.

Definition main (fuel : nat) : M Z :=
  debug_env <- getenv "INHIBIT_DEBUG" ;;
  modify (set_verbose_output
            (negb (negb (match debug_env with Some _ => true | None => false end)))) ;;
  reason_env <- getenv "INHIBIT_REASON" ;;
  modify (set_inhibit_reason
            (match reason_env with
             | Some _ => reason_env
             | None => Some "A game is running"
             end)) ;;
  modify (set_application (if argc <? 2 then argv 0 else argv 1)) ;;
  opened <- sd_bus_open_user ;;
  if fst opened <? 0 then
    fputs_stderr ("Failed to connect to user bus: "
                  +++ w_strerror w (- fst opened) +++ nl) ;;
    pure 1
  else
    main_request_all_inhibitions (snd opened) ;;
    (if argc <? 2 then forever fuel pause else pure tt) ;;
    main_run_and_wait fuel.

(** The whole run, from a fresh process. *)
Definition run (fuel : nat) : outcome Z * state := main fuel (initial w).

End Program.

(** ** Vocabulary of the statements *)

(** Events appended to the trace, everything else untouched. *)
Definition add_trace (evs : list event) (st : state) : state :=
  mkState (verbose_output st) (inhibit_reason st) (application st) (errno st)
          (child_pid st) (wstatus st) (signals st) (kernel st) (trace st ++ evs).

(** The bus calls of a trace, in order, each with the handle it went to. *)
Definition bus_calls (t : list event) : list (Z * DBus.message) :=
  flat_map (fun e => match e with EvBusCall bus m => [(bus, m)] | _ => [] end) t.

(** [t'] is [t] followed by events that all satisfy [P]. *)
Inductive adds (P : event -> Prop) (t : list event) : list event -> Prop :=
| adds_refl : adds P t t
| adds_snoc t' e : adds P t t' -> P e -> adds P t (t' ++ [e]).

(** The reason and the application identifier the program settles on. *)
Definition reason_of (w : world) : string :=
  match w_getenv w "INHIBIT_REASON" with
  | Some r => r
  | None => "A game is running"
  end.

Definition application_of (w : world) : cstr :=
  match w_argv w with
  | [] => None
  | [prog] => Some prog
  | _ :: command :: _ => Some command
  end.

(** The process at line 92: globals set, bus open, nothing else done. *)
Definition configured (w : world) : state :=
  {| verbose_output := match w_getenv w "INHIBIT_DEBUG" with
                       | Some _ => true
                       | None => false
                       end;
     inhibit_reason := Some (reason_of w);
     application := application_of w;
     errno := 0;
     child_pid := fst (w_stack w);
     wstatus := snd (w_stack w);
     signals := w_signals w;
     kernel := w_wait w;
     trace := [EvGetenv "INHIBIT_DEBUG"; EvGetenv "INHIBIT_REASON"; EvBusOpen] |}.

(** The three requests as the spec words them. *)
Definition portal_request (reason : string) : DBus.message :=
  {| DBus.destination := "org.freedesktop.portal.Desktop";
     DBus.path := "/org/freedesktop/portal/desktop";
     DBus.interface := "org.freedesktop.portal.Inhibit";
     DBus.member := "Inhibit";
     DBus.signature := "sua{sv}";
     DBus.body :=
       [DBus.String_ EmptyString; DBus.Uint32 8;
        DBus.Array "{sv}"
          [DBus.DictEntry (DBus.String_ "reason")
                          (DBus.Variant "s" (DBus.String_ reason))]] |}.

Definition screen_saver_request (reason app : string) : DBus.message :=
  {| DBus.destination := "org.freedesktop.ScreenSaver";
     DBus.path := "/org/freedesktop/ScreenSaver";
     DBus.interface := "org.freedesktop.ScreenSaver";
     DBus.member := "Inhibit";
     DBus.signature := "ss";
     DBus.body := [DBus.String_ reason; DBus.String_ app] |}.

Definition power_management_request (reason app : string) : DBus.message :=
  {| DBus.destination := "org.freedesktop.PowerManagement.Inhibit";
     DBus.path := "/org/freedesktop/PowerManagement/Inhibit";
     DBus.interface := "org.freedesktop.PowerManagement.Inhibit";
     DBus.member := "Inhibit";
     DBus.signature := "ss";
     DBus.body := [DBus.String_ reason; DBus.String_ app] |}.

Definition requests (bus : Z) (reason : cstr) (app : cstr)
  : list (Z * DBus.message) :=
  [(bus, portal_request (DBus.strempty reason));
   (bus, screen_saver_request (DBus.strempty reason) (DBus.strempty app));
   (bus, power_management_request (DBus.strempty reason) (DBus.strempty app))].

(** The spec's table of exit codes. *)
Definition shell_exit_code (t : Wait.termination) : Z :=
  match t with
  | Wait.Exited code => code
  | Wait.Signaled sig _ => 128 + sig
  | Wait.Stopped _ | Wait.Continued => 127
  end.

(** The exit code as a function of the raw status word. *)
Definition status_code (ws : Z) : Z :=
  if Wait.WIFEXITED ws then Wait.WEXITSTATUS ws
  else if Wait.WIFSIGNALED ws then Wait.WTERMSIG ws + 128
  else 127.

(** What a blocking wait that is retried on [EINTR] ends up reporting. *)
Fixpoint first_report (k : list wait_event) : option wait_event :=
  match k with
  | [] => None
  | WNoChange :: k' => first_report k'
  | WChanged s :: _ => Some (WChanged s)
  | WError e :: k' => if e =? EINTR then first_report k' else Some (WError e)
  end.

(** How often the wait is interrupted before that. *)
Fixpoint interruptions (k : list wait_event) : nat :=
  match k with
  | [] => O
  | WNoChange :: k' => interruptions k'
  | WChanged _ :: _ => O
  | WError e :: k' => if e =? EINTR then S (interruptions k') else O
  end.

Definition interrupted (n : nat) : list wait_event := repeat (WError EINTR) n.

Definition with_wait (k : list wait_event) (w : world) : world :=
  mkWorld (w_argv w) (w_getenv w) (w_bus_open w) (w_bus_reply w) (w_signals w)
          (w_spawn w) k (w_stack w) (w_strerror w) (w_strsignal w).

Fixpoint starts_with (p s : string) : bool :=
  match p, s with
  | EmptyString, _ => true
  | String a p', String b s' => Ascii.eqb a b && starts_with p' s'
  | String _ _, EmptyString => false
  end.

(** Events of lines 93 to 101 of [main]. *)
Definition before_child (e : event) : bool :=
  match e with
  | EvBusCall _ _ | EvPause => true
  | EvStderr s =>
      starts_with "Trying to inhibit " s || starts_with "Failed to inhibit " s
      || String.eqb s ("Failed." +++ nl) || String.eqb s ("Ok." +++ nl)
  | EvGetenv _ | EvBusOpen | EvSpawn _ _ | EvWait _ _ => false
  end.

(** Events of lines 103 to 129. *)
Definition with_child (e : event) : bool :=
  match e with
  | EvSpawn _ _ | EvWait _ _ => true
  | EvStderr s =>
      String.eqb s "Starting process: " || String.eqb s ("OK" +++ nl)
      || starts_with "Failed to start process: " s
      || starts_with "Child process exited" s
      || starts_with "Child process killed" s
  | EvGetenv _ | EvBusOpen | EvBusCall _ _ | EvPause => false
  end.

Definition no_child_message : string := "Child process does not exist".

(** What a request says about the reason and about the application. *)
Definition reason_sent (m : DBus.message) : option string :=
  match DBus.body m with
  | [DBus.String_ _; DBus.Uint32 _;
     DBus.Array _ [DBus.DictEntry (DBus.String_ "reason")
                                  (DBus.Variant _ (DBus.String_ r))]] => Some r
  | [DBus.String_ r; DBus.String_ _] => Some r
  | _ => None
  end.

Definition application_sent (m : DBus.message) : option string :=
  match DBus.body m with
  | [DBus.String_ _; DBus.String_ a] => Some a
  | _ => None
  end.

(** All integers from [lo], [n] of them. *)
Definition Zrange (lo : Z) (n : nat) : list Z :=
  map (fun i => lo + Z.of_nat i) (seq 0 n).

(** A world for the examples: [prog sh -c "exit 7"], screen-saver service
    missing, one interruption before the child is reaped. *)
Definition sample_world : world :=
  {| w_argv := ["prog"; "sh"; "-c"; "exit 7"];
     w_getenv := fun _ => None;
     w_bus_open := (0, 1);
     w_bus_reply := fun m =>
       if String.eqb (DBus.destination m) "org.freedesktop.ScreenSaver"
       then (-2, Some "The name is not activatable") else (1, None);
     w_signals := O;
     w_spawn := SpawnOk 4242;
     w_wait := [WNoChange; WError EINTR; WChanged 1792];
     w_stack := (0, 0);
     w_strerror := fun e => "errno " +++ fmt_d e;
     w_strsignal := fun s => "signal " +++ fmt_d s |}.

Definition with_argv (a : list string) (w : world) : world :=
  mkWorld a (w_getenv w) (w_bus_open w) (w_bus_reply w) (w_signals w)
          (w_spawn w) (w_wait w) (w_stack w) (w_strerror w) (w_strsignal w).

Definition with_bus_reply (r : DBus.message -> Z * cstr) (w : world) : world :=
  mkWorld (w_argv w) (w_getenv w) (w_bus_open w) r (w_signals w)
          (w_spawn w) (w_wait w) (w_stack w) (w_strerror w) (w_strsignal w).

Definition with_spawn (r : spawn_result) (w : world) : world :=
  mkWorld (w_argv w) (w_getenv w) (w_bus_open w) (w_bus_reply w) (w_signals w)
          r (w_wait w) (w_stack w) (w_strerror w) (w_strsignal w).

(** What each of the three [inhibit_via_...] functions does: one call to
    [bus] carrying [request], trace entries, nothing else. *)
Definition attempt_spec (m : M bool) (bus : Z) (request : state -> DBus.message)
  : Prop :=
  forall st, exists b evs,
    m st = (Done b, add_trace evs st)
    /\ bus_calls evs = [(bus, request st)]
    /\ Forall (fun e => before_child e = true) evs.

(** The three global variables. *)
Definition globals (st : state) : bool * cstr * cstr :=
  (verbose_output st, inhibit_reason st, application st).

(** The result and the status word a wait leaves behind, given what it
    ends up reporting. *)
Definition report_result (pid : Z) (r : option wait_event) : outcome Z :=
  match r with
  | Some (WChanged _) => Done pid
  | Some (WError _) => Done (-1)
  | _ => Pending
  end.

Definition report_status (old : Z) (r : option wait_event) : Z :=
  match r with
  | Some (WChanged s) => s
  | _ => old
  end.

(** An event of either half of [main]. *)
Definition any_phase (e : event) : Prop :=
  before_child e = true \/ with_child e = true.

(** Variations of the sample: the child stopped by signal 19, killed by
    signal 9, not there to be waited for; no command; no such executable. *)
Definition stopped_world : world := with_wait [WChanged 4991] sample_world.
Definition killed_world : world := with_wait [WChanged 9] sample_world.
Definition orphan_world : world := with_wait [WError ECHILD] sample_world.
Definition idle_world : world := with_argv ["prog"] sample_world.
Definition enoent_world : world := with_spawn (SpawnFail 2) sample_world.

(** No inhibition service answers. *)
Definition deaf_world : world :=
  with_bus_reply (fun _ => (-2, Some "The name is not activatable"))
                 sample_world.

(** ** Vocabulary of the further properties *)

(** What [debug] adds to the trace. *)
Definition dbg (v : bool) (s : string) : list event :=
  if v then [EvStderr s] else [].

(** What one attempt adds to the trace: the announcement, the call, and
    the verdict, with the diagnostic if the call failed. *)
Definition attempt_events (v : bool) (bus : Z) (m : DBus.message)
    (reply : Z * cstr) (trying what : string) : list event :=
  dbg v trying ++ [EvBusCall bus m]
  ++ (if fst reply <? 0
      then dbg v ("Failed." +++ nl)
           ++ [EvStderr ("Failed to inhibit " +++ what +++ ": "
                         +++ fmt_s (snd reply) +++ nl)]
      else dbg v ("Ok." +++ nl)).

(** What lines 115 to 128 add to the trace for a status word. *)
Definition report_events (w : world) (v : bool) (ws : Z) : list event :=
  if Wait.WIFEXITED ws then
    if Wait.WEXITSTATUS ws =? 0
    then dbg v ("Child process exited normally" +++ nl)
    else [EvStderr ("Child process exited with code "
                    +++ fmt_d (Wait.WEXITSTATUS ws) +++ nl)]
  else if Wait.WIFSIGNALED ws then
    [EvStderr ("Child process killed by signal "
               +++ w_strsignal w (Wait.WTERMSIG ws) +++ nl)]
  else [EvStderr "Child process exited abnormally"].

(** What lines 93 to 95 add to the trace. *)
Definition inhibit_events (w : world) (v : bool) (bus : Z) (reason app : cstr)
  : list event :=
  let m1 := portal_request (DBus.strempty reason) in
  let m2 := screen_saver_request (DBus.strempty reason) (DBus.strempty app) in
  let m3 := power_management_request (DBus.strempty reason)
                                     (DBus.strempty app) in
  attempt_events v bus m1 (w_bus_reply w m1)
    "Trying to inhibit idle via org.freedesktop.portal.Inhibit interface: "
    "idle"
  ++ attempt_events v bus m2 (w_bus_reply w m2)
       "Trying to inhibit screensaver via org.freedesktop.ScreenSaver interface: "
       "screensaver"
  ++ attempt_events v bus m3 (w_bus_reply w m3)
       "Trying to inhibit power management via org.freedesktop.PowerManagement.Inhibit interface: "
       "power saving".

(** What lines 103 to 110 add to the trace when the spawn succeeds. *)
Definition spawn_events (w : world) (v : bool) : list event :=
  dbg v "Starting process: " ++ [EvSpawn (argv w 1) (tl (w_argv w))]
  ++ dbg v ("OK" +++ nl).

(** The whole trace of a run with a command whose child [pid] is spawned
    and whose wait ends with the report [r]. *)
Definition reported_trace (w : world) (pid : positive) (r : wait_event)
  : list event :=
  let v := verbose_output (configured w) in
  trace (configured w)
  ++ inhibit_events w v (snd (w_bus_open w)) (Some (reason_of w))
                    (application_of w)
  ++ spawn_events w v
  ++ repeat (EvWait (Zpos pid) 0) (S (interruptions (w_wait w)))
  ++ report_events w v (report_status (snd (w_stack w)) (Some r)).

Definition is_stderr (e : event) : bool :=
  match e with EvStderr _ => true | _ => false end.

Definition is_spawn (e : event) : bool :=
  match e with EvSpawn _ _ => true | _ => false end.

Definition is_wait (e : event) : bool :=
  match e with EvWait _ _ => true | _ => false end.

Definition is_bus_call (e : event) : bool :=
  match e with EvBusCall _ _ => true | _ => false end.

(** What the error stream is to say about a termination. *)
Definition child_report (w : world) (v : bool) (t : Wait.termination)
  : list event :=
  match t with
  | Wait.Exited code =>
      if code =? 0
      then dbg v ("Child process exited normally" +++ nl)
      else [EvStderr ("Child process exited with code " +++ fmt_d code +++ nl)]
  | Wait.Signaled sig _ =>
      [EvStderr ("Child process killed by signal " +++ w_strsignal w sig +++ nl)]
  | Wait.Stopped _ | Wait.Continued =>
      [EvStderr "Child process exited abnormally"]
  end.

(** Whether [INHIBIT_DEBUG] is set. *)
Definition verbose_of (w : world) : bool :=
  match w_getenv w "INHIBIT_DEBUG" with
  | Some _ => true
  | None => false
  end.

(** Bus calls and writes to the error stream. *)
Definition chatter (e : event) : bool := is_bus_call e || is_stderr e.

(** The calls that concern the child. *)
Definition is_child_call (e : event) : bool := is_spawn e || is_wait e.

(** The strings the program hands to [debug]. *)
Definition debug_message (s : string) : bool :=
  starts_with "Trying to inhibit " s
  || String.eqb s ("Failed." +++ nl) || String.eqb s ("Ok." +++ nl)
  || String.eqb s "Starting process: " || String.eqb s ("OK" +++ nl)
  || String.eqb s ("Child process exited normally" +++ nl).

(** The verdict lines of the three attempts. *)
Definition verdict_message (s : string) : bool :=
  starts_with "Failed to inhibit " s
  || String.eqb s ("Failed." +++ nl) || String.eqb s ("Ok." +++ nl).

(** Everything but the verdicts. *)
Definition beside_verdicts (e : event) : bool :=
  match e with
  | EvStderr s => negb (verdict_message s)
  | _ => true
  end.

(** Everything but the output of [debug]. *)
Definition audible (e : event) : bool :=
  match e with
  | EvStderr s => negb (debug_message s)
  | _ => true
  end.

Definition with_getenv (g : string -> cstr) (w : world) : world :=
  mkWorld (w_argv w) g (w_bus_open w) (w_bus_reply w) (w_signals w)
          (w_spawn w) (w_wait w) (w_stack w) (w_strerror w) (w_strsignal w).

Definition with_bus_open (r : Z * Z) (w : world) : world :=
  mkWorld (w_argv w) (w_getenv w) r (w_bus_reply w) (w_signals w)
          (w_spawn w) (w_wait w) (w_stack w) (w_strerror w) (w_strsignal w).

(** The same world with [INHIBIT_DEBUG] set to [v], or unset. *)
Definition set_debug (v : cstr) (w : world) : world :=
  with_getenv (fun name => if String.eqb name "INHIBIT_DEBUG" then v
                           else w_getenv w name) w.

(** The state but for the verbosity flag and the trace. *)
Definition core (st : state)
  : cstr * cstr * Z * Z * Z * nat * list wait_event :=
  (inhibit_reason st, application st, errno st, child_pid st, wstatus st,
   signals st, kernel st).

(** Two states that agree on [core] and on the part of the trace that
    [keep] selects; the verbosity flags agree too, unless [keep] drops all
    output of [debug]. *)
Definition alike (keep : event -> bool) (st st' : state) : Prop :=
  core st = core st'
  /\ filter keep (trace st) = filter keep (trace st')
  /\ (verbose_output st = verbose_output st'
      \/ forall s, debug_message s = true -> keep (EvStderr s) = false).

(** A computation that takes alike states to alike states, with the same
    result. *)
Definition respects {A} (keep : event -> bool) (m : M A) : Prop :=
  forall st st', alike keep st st' ->
    fst (m st) = fst (m st') /\ alike keep (snd (m st)) (snd (m st')).

(** More sample worlds: no session bus; a quiet success. *)
Definition busless_world : world := with_bus_open (-111, 0) sample_world.
Definition quiet_world : world :=
  with_bus_reply (fun _ => (1, None)) (with_wait [WChanged 0] sample_world).

(** * Properties *)

(** ** The monad and the trace *)

Lemma bind_done {A B} (m : M A) (k : A -> M B) st a st' :
  m st = (Done a, st') -> bind m k st = k a st'.
Proof. intros H. unfold bind. now rewrite H. Qed.

Lemma bind_pending {A B} (m : M A) (k : A -> M B) st st' :
  m st = (Pending, st') -> bind m k st = (Pending, st').
Proof. intros H. unfold bind. now rewrite H. Qed.

Lemma add_trace_add_trace evs1 evs2 st :
  add_trace evs2 (add_trace evs1 st) = add_trace (evs1 ++ evs2) st.
Proof. unfold add_trace. simpl. now rewrite app_assoc. Qed.

Lemma trace_add_trace evs st : trace (add_trace evs st) = trace st ++ evs.
Proof. reflexivity. Qed.

Lemma bus_calls_app t1 t2 : bus_calls (t1 ++ t2) = bus_calls t1 ++ bus_calls t2.
Proof. apply flat_map_app. Qed.

Lemma adds_trans P t1 t2 t3 : adds P t1 t2 -> adds P t2 t3 -> adds P t1 t3.
Proof.
  intros H12 H23. induction H23 as [|t3 e _ IH He]; [assumption|].
  now apply adds_snoc.
Qed.

Lemma adds_weaken (P Q : event -> Prop) t t' :
  (forall e, P e -> Q e) -> adds P t t' -> adds Q t t'.
Proof.
  intros HPQ H. induction H as [|t' e _ IH He]; [apply adds_refl|].
  apply adds_snoc; auto.
Qed.

Lemma adds_app P t evs : Forall P evs -> adds P t (t ++ evs).
Proof.
  induction evs as [|e evs IH] using rev_ind; intros H.
  - rewrite app_nil_r. apply adds_refl.
  - apply Forall_app in H as [H1 H2]. rewrite app_assoc.
    apply adds_snoc; [auto | now inversion H2].
Qed.

Lemma adds_inv P t t' : adds P t t' -> exists evs, t' = t ++ evs /\ Forall P evs.
Proof.
  induction 1 as [|t' e _ [evs [-> Hall]] He].
  - exists []. now rewrite app_nil_r.
  - exists (evs ++ [e]). rewrite app_assoc. split; [reflexivity|].
    apply Forall_app. split; [assumption | now constructor].
Qed.

Lemma adds_not_in P t t' e :
  adds P t t' -> ~ P e -> ~ In e t -> ~ In e t'.
Proof.
  intros H HnP Hnin. induction H as [|t' e' _ IH He']; [assumption|].
  rewrite in_app_iff. intros [Hin | [-> | []]]; auto.
Qed.

Lemma adds_bus_calls P t t' :
  (forall bus m, ~ P (EvBusCall bus m)) -> adds P t t' -> bus_calls t' = bus_calls t.
Proof.
  intros HP H. induction H as [|t' e _ IH He]; [reflexivity|].
  rewrite bus_calls_app, IH. destruct e; simpl; try apply app_nil_r.
  now apply HP in He.
Qed.

Ltac unfold_monad :=
  cbv [bind gets emit modify pure pending fputs_stderr debug getenv
       sd_bus_open_user].

(** Turn a stack of [log]s into one [add_trace]. *)
Ltac collect_trace :=
  repeat match goal with
         | |- context [log ?e ?s] => change (log e s) with (add_trace [e] s)
         end;
  rewrite ?add_trace_add_trace; simpl app.

(** ** The bus messages *)

Lemma append_portal reason :
  DBus.append "sua{sv}"
    [DBus.VaStr (Some EmptyString); DBus.VaInt 8; DBus.VaInt 1;
     DBus.VaStr (Some "reason"); DBus.VaStr (Some "s"); DBus.VaStr reason]
  = Some (DBus.body (portal_request (DBus.strempty reason))).
Proof. reflexivity. Qed.

Lemma append_two_strings reason app :
  DBus.append "ss" [DBus.VaStr reason; DBus.VaStr app]
  = Some [DBus.String_ (DBus.strempty reason); DBus.String_ (DBus.strempty app)].
Proof. reflexivity. Qed.

Ltac attempt_cases :=
  intros st; unfold_monad;
  destruct (verbose_output st) eqn:Hv; simpl;
  match goal with
  | |- context [if ?r <? 0 then _ else _] => destruct (r <? 0)
  end;
  simpl; rewrite ?Hv; collect_trace;
  (do 2 eexists; split; [reflexivity|]; split;
   [reflexivity | repeat constructor]).

Lemma inhibit_via_inhibit_portal_spec w bus :
  attempt_spec (inhibit_via_inhibit_portal w bus) bus
    (fun st => portal_request (DBus.strempty (inhibit_reason st))).
Proof.
  unfold attempt_spec, inhibit_via_inhibit_portal, sd_bus_call_method.
  attempt_cases.
Qed.

Lemma inhibit_via_screen_saver_spec w bus :
  attempt_spec (inhibit_via_screen_saver w bus) bus
    (fun st => screen_saver_request (DBus.strempty (inhibit_reason st))
                                    (DBus.strempty (application st))).
Proof.
  unfold attempt_spec, inhibit_via_screen_saver, sd_bus_call_method.
  attempt_cases.
Qed.

Lemma inhibit_via_power_management_spec w bus :
  attempt_spec (inhibit_via_power_management w bus) bus
    (fun st => power_management_request (DBus.strempty (inhibit_reason st))
                                        (DBus.strempty (application st))).
Proof.
  unfold attempt_spec, inhibit_via_power_management, sd_bus_call_method.
  attempt_cases.
Qed.

Lemma request_all_spec w bus st :
  exists evs,
    main_request_all_inhibitions w bus st = (Done tt, add_trace evs st)
    /\ bus_calls evs = requests bus (inhibit_reason st) (application st)
    /\ Forall (fun e => before_child e = true) evs.
Proof.
  destruct (inhibit_via_inhibit_portal_spec w bus st) as (b1 & evs1 & E1 & C1 & F1).
  destruct (inhibit_via_screen_saver_spec w bus (add_trace evs1 st))
    as (b2 & evs2 & E2 & C2 & F2).
  destruct (inhibit_via_power_management_spec w bus
              (add_trace evs2 (add_trace evs1 st))) as (b3 & evs3 & E3 & C3 & F3).
  exists (evs1 ++ evs2 ++ evs3). unfold main_request_all_inhibitions.
  rewrite (bind_done _ _ _ _ _ E1), (bind_done _ _ _ _ _ E2),
    (bind_done _ _ _ _ _ E3).
  unfold pure. rewrite !add_trace_add_trace, <- ?app_assoc.
  split; [reflexivity|]. split.
  - rewrite !bus_calls_app, C1, C2, C3. reflexivity.
  - rewrite !Forall_app. auto.
Qed.

(** ** The two loops *)

Lemma forever_pause fuel : forall st,
  exists st',
    forever fuel pause st = (Pending, st')
    /\ adds (fun e => e = EvPause) (trace st) (trace st')
    /\ globals st' = globals st.
Proof.
  induction fuel as [|fuel IH]; intros st.
  - exists st. repeat split. apply adds_refl.
  - cbn [forever]. unfold pause at 1. unfold_monad. simpl.
    destruct (signals st) as [|n] eqn:Hs.
    + eexists. split; [reflexivity|]. split; [|reflexivity].
      simpl. apply adds_snoc; [apply adds_refl | reflexivity].
    + destruct (IH (set_errno EINTR (set_signals n (log EvPause st))))
        as (st' & E & Hadds & Hg).
      exists st'. rewrite E. split; [reflexivity|]. split; [|exact Hg].
      eapply adds_trans; [|exact Hadds].
      simpl. apply adds_snoc; [apply adds_refl | reflexivity].
Qed.

Lemma wait4_kernel pid options k : forall k0 st,
  wait4 pid options k (set_kernel k0 st) = wait4 pid options k st.
Proof.
  induction k as [|ev k IH]; intros k0 st; [reflexivity|].
  destruct ev; simpl; [|reflexivity|reflexivity].
  destruct (Z.land options Wait.WNOHANG =? 0); [apply IH | reflexivity].
Qed.

(** A blocking wait yields the identifier waited for, or -1. *)
Lemma wait4_blocking pid k : forall st o st',
  wait4 pid 0 k st = (o, st') ->
  trace st' = trace st /\ globals st' = globals st
  /\ forall rc, o = Done rc -> rc = pid \/ rc = -1.
Proof.
  induction k as [|ev k IH]; intros st o st' H.
  - inversion H; subst. repeat split. discriminate.
  - destruct ev; simpl in H.
    + now apply IH.
    + inversion H; subst. repeat split. intros rc [= <-]. now left.
    + inversion H; subst. repeat split. intros rc [= <-]. now right.
Qed.

Lemma retry_wait_any pid fuel : forall st o st',
  TEMP_FAILURE_RETRY fuel (waitpid pid 0) st = (o, st') ->
  adds (fun e => e = EvWait pid 0) (trace st) (trace st')
  /\ globals st' = globals st
  /\ forall rc, o = Done rc -> rc = pid \/ rc = -1.
Proof.
  induction fuel as [|fuel IH]; intros st o st' H.
  - inversion H; subst. repeat split; [apply adds_refl | discriminate].
  - cbn [TEMP_FAILURE_RETRY] in H. unfold bind at 1 in H.
    destruct (waitpid pid 0 st) as [o1 st1] eqn:E1.
    unfold waitpid in E1. apply wait4_blocking in E1 as (Ht & Hg & Hrc).
    assert (Hstep : adds (fun e => e = EvWait pid 0) (trace st) (trace st1)).
    { rewrite Ht. simpl. apply adds_snoc; [apply adds_refl | reflexivity]. }
    destruct o1 as [r|]; [|inversion H; subst; repeat split; auto; discriminate].
    cbv [bind gets pure] in H.
    destruct ((r =? -1) && (errno st1 =? EINTR)).
    + apply IH in H as (Hadds & Hg' & Hrc'). repeat split; auto.
      * eapply adds_trans; eassumption.
      * now rewrite Hg'.
    + inversion H; subst. repeat split; auto.
Qed.

(** With one evaluation more than there are interruptions, the retried
    wait delivers the first report. *)
Lemma retry_wait_report pid : pid <> -1 -> forall k fuel st,
  kernel st = k -> (interruptions k < fuel)%nat ->
  exists st',
    TEMP_FAILURE_RETRY fuel (waitpid pid 0) st
    = (report_result pid (first_report k), st')
    /\ wstatus st' = report_status (wstatus st) (first_report k).
Proof.
  intros Hpid. induction k as [|ev k IH]; intros fuel st Hk Hfuel.
  - destruct fuel as [|fuel]; [inversion Hfuel|].
    cbn [TEMP_FAILURE_RETRY]. unfold bind at 1, waitpid. rewrite Hk. simpl.
    eexists. split; reflexivity.
  - destruct ev as [|s|e].
    + destruct fuel as [|fuel]; [inversion Hfuel|].
      destruct (IH (S fuel) (set_kernel k st) eq_refl Hfuel) as (st' & E & Hw).
      exists st'. split; [|exact Hw]. cbn [first_report]. rewrite <- E.
      cbn [TEMP_FAILURE_RETRY]. unfold bind at 1 3, waitpid. rewrite Hk.
      cbn [wait4]. change (Z.land 0 Wait.WNOHANG =? 0) with true. cbv iota.
      change (log (EvWait pid 0) (set_kernel k st))
        with (set_kernel k (log (EvWait pid 0) st)).
      rewrite wait4_kernel. reflexivity.
    + destruct fuel as [|fuel]; [inversion Hfuel|].
      cbn [TEMP_FAILURE_RETRY]. unfold bind at 1, waitpid. rewrite Hk.
      cbn [wait4]. cbv [bind gets pure].
      apply Z.eqb_neq in Hpid. rewrite Hpid. simpl.
      eexists. split; reflexivity.
    + simpl in Hfuel |- *. destruct fuel as [|fuel].
      { destruct (e =? EINTR); inversion Hfuel. }
      cbn [TEMP_FAILURE_RETRY]. unfold bind at 1, waitpid. rewrite Hk.
      cbn [wait4]. cbv [bind gets pure]. simpl.
      destruct (e =? EINTR) eqn:He.
      * destruct (IH fuel (set_errno e (set_kernel k (log (EvWait pid 0) st)))
                    eq_refl ltac:(lia)) as (st' & E & Hw).
        exists st'. split; [exact E | exact Hw].
      * eexists. split; reflexivity.
Qed.

(** ** After the wait *)

Ltac adds_steps :=
  simpl trace;
  repeat first [apply adds_refl | apply adds_snoc; [|reflexivity]].

Lemma main_after_wait_classifies w rc st : rc <> 0 ->
  exists st',
    main_after_wait w rc st = (Done (status_code (wstatus st)), st')
    /\ adds (fun e => with_child e = true) (trace st) (trace st')
    /\ globals st' = globals st.
Proof.
  intros Hrc. apply Z.eqb_neq in Hrc.
  unfold main_after_wait, status_code. unfold_monad. rewrite Hrc. cbv iota beta.
  cbn [negb].
  destruct (Wait.WIFEXITED (wstatus st));
    [destruct (Wait.WEXITSTATUS (wstatus st) =? 0); destruct (verbose_output st)
    | destruct (Wait.WIFSIGNALED (wstatus st))];
    (eexists; split; [reflexivity|]; split; [adds_steps | reflexivity]).
Qed.

Lemma main_after_wait_zero w st :
  main_after_wait w 0 st = (Done 1, log (EvStderr no_child_message) st).
Proof. reflexivity. Qed.

(** ** The supervisor *)

Lemma run_and_wait_spawned w fuel pid st : w_spawn w = SpawnOk pid ->
  exists st2,
    main_run_and_wait w fuel st
    = (rc <- TEMP_FAILURE_RETRY fuel (waitpid (Zpos pid) 0) ;;
       main_after_wait w rc) st2
    /\ adds (fun e => with_child e = true) (trace st) (trace st2)
    /\ globals st2 = globals st
    /\ kernel st2 = kernel st /\ wstatus st2 = wstatus st.
Proof.
  intros Hs. unfold main_run_and_wait, posix_spawnp. rewrite Hs. unfold_monad.
  destruct (verbose_output st) eqn:Hv; cbn; rewrite ?Hv;
    (eexists; split; [reflexivity|]; split; [adds_steps | repeat split]).
Qed.

Lemma run_and_wait_spawn_failed w fuel err st : w_spawn w = SpawnFail err ->
  exists evs,
    main_run_and_wait w fuel st
    = (Done 1,
       add_trace (evs ++ [EvSpawn (argv w 1) (tl (w_argv w));
                          EvStderr ("Failed to start process: "
                                    +++ w_strerror w (Zpos err) +++ nl)]) st)
    /\ Forall (fun e => e = EvStderr "Starting process: ") evs.
Proof.
  intros Hs. unfold main_run_and_wait, posix_spawnp. rewrite Hs. unfold_monad.
  destruct (verbose_output st) eqn:Hv; cbn; collect_trace.
  - exists [EvStderr "Starting process: "]. split; [reflexivity|]. now constructor.
  - exists []. split; [reflexivity|]. constructor.
Qed.

Lemma run_and_wait_any w fuel st :
  adds (fun e => with_child e = true)
       (trace st) (trace (snd (main_run_and_wait w fuel st)))
  /\ globals (snd (main_run_and_wait w fuel st)) = globals st.
Proof.
  destruct (w_spawn w) as [pid|err] eqn:Hs.
  - destruct (run_and_wait_spawned w fuel pid st Hs) as (st2 & -> & H2 & G2 & _).
    unfold bind.
    destruct (TEMP_FAILURE_RETRY fuel (waitpid (Zpos pid) 0) st2)
      as [[rc|] st3] eqn:E;
      apply retry_wait_any in E as (Hadds & Hg & Hrc);
      assert (H3 : adds (fun e => with_child e = true) (trace st) (trace st3))
        by (eapply adds_trans;
            [exact H2 | eapply adds_weaken; [|exact Hadds]; now intros e0 ->]).
    + destruct (main_after_wait_classifies w rc st3) as (st4 & -> & H4 & G4).
      { destruct (Hrc rc eq_refl) as [-> | ->]; discriminate. }
      split; [eapply adds_trans; eassumption | simpl; now rewrite G4, Hg].
    + split; [exact H3 | simpl; now rewrite Hg].
  - destruct (run_and_wait_spawn_failed w fuel err st Hs) as (evs & -> & Hevs).
    split; [|reflexivity]. simpl. apply adds_app, Forall_app. split.
    + eapply Forall_impl; [|exact Hevs]. now intros e ->.
    + repeat (apply Forall_cons; [reflexivity|]). apply Forall_nil.
Qed.

(** The exit code once the wait has reported. *)
Lemma run_and_wait_reported w fuel pid st : w_spawn w = SpawnOk pid ->
  (interruptions (kernel st) < fuel)%nat ->
  fst (main_run_and_wait w fuel st)
  = match first_report (kernel st) with
    | Some (WChanged s) => Done (status_code s)
    | Some (WError _) => Done (status_code (wstatus st))
    | _ => Pending
    end.
Proof.
  intros Hs Hfuel.
  destruct (run_and_wait_spawned w fuel pid st Hs) as (st2 & -> & _ & _ & K2 & W2).
  destruct (retry_wait_report (Zpos pid) ltac:(discriminate) (kernel st) fuel st2
              K2 Hfuel) as (st3 & E & W3).
  rewrite W2 in W3. unfold bind. rewrite E.
  destruct (first_report (kernel st)) as [[|s|e]|]; simpl; try reflexivity.
  - destruct (main_after_wait_classifies w (Zpos pid) st3) as (st4 & -> & _);
      [discriminate|]. simpl in W3. now rewrite W3.
  - destruct (main_after_wait_classifies w (-1) st3) as (st4 & -> & _);
      [discriminate|]. simpl in W3. now rewrite W3.
Qed.

(** ** The whole program *)

Lemma application_of_spec w :
  (if argc w <? 2 then argv w 0 else argv w 1) = application_of w.
Proof.
  unfold argc, argv, application_of.
  destruct (w_argv w) as [|prog [|command rest]]; try reflexivity.
  replace (Z.of_nat (List.length (prog :: command :: rest)) <? 2) with false;
    [reflexivity|].
  symmetry. apply Z.ltb_ge. simpl List.length. lia.
Qed.

Lemma run_bus_opened w fuel : 0 <= fst (w_bus_open w) ->
  run w fuel
  = (main_request_all_inhibitions w (snd (w_bus_open w)) ;;
     (if argc w <? 2 then forever fuel pause else pure tt) ;;
     main_run_and_wait w fuel) (configured w).
Proof.
  intros Hopen. apply Z.ltb_ge in Hopen.
  unfold run, main, getenv, sd_bus_open_user.
  cbv [bind emit modify pure]. rewrite Hopen, application_of_spec.
  unfold configured, reason_of.
  destruct (w_getenv w "INHIBIT_DEBUG"), (w_getenv w "INHIBIT_REASON");
    reflexivity.
Qed.

Lemma run_inhibited w fuel : 0 <= fst (w_bus_open w) ->
  exists evs,
    run w fuel
    = ((if argc w <? 2 then forever fuel pause else pure tt) ;;
       main_run_and_wait w fuel) (add_trace evs (configured w))
    /\ bus_calls evs
       = requests (snd (w_bus_open w)) (Some (reason_of w)) (application_of w)
    /\ Forall (fun e => before_child e = true) evs.
Proof.
  intros Hopen. rewrite (run_bus_opened w fuel Hopen).
  destruct (request_all_spec w (snd (w_bus_open w)) (configured w))
    as (evs & E & Hcalls & Hall).
  exists evs. rewrite (bind_done _ _ _ _ _ E). auto.
Qed.

(** Without a command the program stays in the loop of line 98. *)
Lemma run_idle w fuel :
  0 <= fst (w_bus_open w) -> (List.length (w_argv w) < 2)%nat ->
  exists st',
    run w fuel = (Pending, st')
    /\ adds (fun e => before_child e = true) (trace (configured w)) (trace st')
    /\ globals st' = globals (configured w).
Proof.
  intros Hopen Hargc.
  destruct (run_inhibited w fuel Hopen) as (evs & -> & _ & Hall).
  replace (argc w <? 2) with true
    by (symmetry; apply Z.ltb_lt; unfold argc; lia).
  destruct (forever_pause fuel (add_trace evs (configured w)))
    as (st' & E & Hadds & Hg).
  exists st'. rewrite (bind_pending _ _ _ _ E). split; [reflexivity|].
  split; [|exact Hg].
  eapply adds_trans; [apply adds_app, Hall|].
  eapply adds_weaken; [|exact Hadds]. now intros e ->.
Qed.

(** With a command it goes on to the supervisor. *)
Lemma run_command w fuel :
  0 <= fst (w_bus_open w) -> (2 <= List.length (w_argv w))%nat ->
  exists evs,
    run w fuel = main_run_and_wait w fuel (add_trace evs (configured w))
    /\ bus_calls evs
       = requests (snd (w_bus_open w)) (Some (reason_of w)) (application_of w)
    /\ Forall (fun e => before_child e = true) evs.
Proof.
  intros Hopen Hargc.
  destruct (run_inhibited w fuel Hopen) as (evs & -> & Hcalls & Hall).
  replace (argc w <? 2) with false
    by (symmetry; apply Z.ltb_ge; unfold argc; lia).
  exists evs. auto.
Qed.

Ltac no_bus_call :=
  let H := fresh in intros ? ? H; simpl in H; discriminate H.

(** Every run that got a bus: the line-92 trace, then events of the two
    halves; the globals as they were set. *)
Lemma run_trace w fuel : 0 <= fst (w_bus_open w) ->
  adds any_phase (trace (configured w)) (trace (snd (run w fuel)))
  /\ bus_calls (trace (snd (run w fuel)))
     = requests (snd (w_bus_open w)) (Some (reason_of w)) (application_of w)
  /\ globals (snd (run w fuel)) = globals (configured w).
Proof.
  intros Hopen.
  destruct (Nat.lt_ge_cases (List.length (w_argv w)) 2) as [Hargc | Hargc].
  - destruct (run_inhibited w fuel Hopen) as (evs & E & Hcalls & Hall).
    rewrite E. replace (argc w <? 2) with true
      by (symmetry; apply Z.ltb_lt; unfold argc; lia).
    destruct (forever_pause fuel (add_trace evs (configured w)))
      as (st' & E' & Hadds & Hg).
    rewrite (bind_pending _ _ _ _ E'). simpl. repeat split.
    + eapply adds_trans; [apply adds_app|].
      * eapply Forall_impl; [|exact Hall]. now left.
      * eapply adds_weaken; [|exact Hadds]. intros e ->. now left.
    + pose proof (fun HP => adds_bus_calls _ _ _ HP Hadds) as Hb.
      rewrite Hb by no_bus_call.
      change (trace (add_trace evs (configured w)))
        with (trace (configured w) ++ evs).
      rewrite bus_calls_app. exact Hcalls.
    + exact Hg.
  - destruct (run_command w fuel Hopen Hargc) as (evs & -> & Hcalls & Hall).
    destruct (run_and_wait_any w fuel (add_trace evs (configured w)))
      as (Hadds & Hg).
    repeat split.
    + eapply adds_trans; [apply adds_app|].
      * eapply Forall_impl; [|exact Hall]. now left.
      * eapply adds_weaken; [|exact Hadds]. now right.
    + pose proof (fun HP => adds_bus_calls _ _ _ HP Hadds) as Hb.
      rewrite Hb by no_bus_call.
      change (trace (add_trace evs (configured w)))
        with (trace (configured w) ++ evs).
      rewrite bus_calls_app. exact Hcalls.
    + exact Hg.
Qed.

(** The exit code of a run whose wait gets a report. *)
Lemma run_reported w fuel pid :
  0 <= fst (w_bus_open w) -> (2 <= List.length (w_argv w))%nat ->
  w_spawn w = SpawnOk pid -> (interruptions (w_wait w) < fuel)%nat ->
  fst (run w fuel)
  = match first_report (w_wait w) with
    | Some (WChanged s) => Done (status_code s)
    | Some (WError _) => Done (status_code (snd (w_stack w)))
    | _ => Pending
    end.
Proof.
  intros Hopen Hargc Hs Hfuel.
  destruct (run_command w fuel Hopen Hargc) as (evs & -> & _).
  now rewrite (run_and_wait_reported w fuel pid _ Hs).
Qed.

(** ** The status word *)

(** A property of a byte-sized range is settled by trying every value. *)
Lemma Zrange_forallb (P : Z -> bool) lo n :
  forallb P (Zrange lo n) = true ->
  forall x, lo <= x < lo + Z.of_nat n -> P x = true.
Proof.
  intros H x Hx. rewrite forallb_forall in H. apply H.
  unfold Zrange. apply in_map_iff. exists (Z.to_nat (x - lo)).
  split; [lia|]. apply in_seq. lia.
Qed.

Lemma status_code_exited code : 0 <= code < 256 ->
  status_code (Wait.W_encode (Wait.Exited code)) = code.
Proof.
  intros H. apply Z.eqb_eq.
  apply (Zrange_forallb
           (fun c => status_code (Wait.W_encode (Wait.Exited c)) =? c) 0 256);
    [vm_compute; reflexivity | lia].
Qed.

Lemma status_code_signaled sig core : 1 <= sig < 127 ->
  status_code (Wait.W_encode (Wait.Signaled sig core)) = 128 + sig.
Proof.
  intros H. apply Z.eqb_eq.
  apply (Zrange_forallb
           (fun s => status_code (Wait.W_encode (Wait.Signaled s core))
                     =? 128 + s) 1 126);
    [destruct core; vm_compute; reflexivity | lia].
Qed.

Lemma status_code_stopped sig : 1 <= sig < 256 ->
  status_code (Wait.W_encode (Wait.Stopped sig)) = 127.
Proof.
  intros H. apply Z.eqb_eq.
  apply (Zrange_forallb
           (fun s => status_code (Wait.W_encode (Wait.Stopped s)) =? 127) 1 255);
    [vm_compute; reflexivity | lia].
Qed.

Lemma status_code_encode t : Wait.valid t ->
  status_code (Wait.W_encode t) = shell_exit_code t.
Proof.
  destruct t as [code|sig core|sig|]; simpl Wait.valid; intros H.
  - now apply status_code_exited.
  - now apply status_code_signaled.
  - now apply status_code_stopped.
  - reflexivity.
Qed.

(** ** Interruptions *)

Lemma first_report_interrupted n k :
  first_report (interrupted n ++ k) = first_report k.
Proof. induction n as [|n IH]; [reflexivity | exact IH]. Qed.

Lemma interruptions_interrupted n k :
  interruptions (interrupted n ++ k) = (n + interruptions k)%nat.
Proof. induction n as [|n IH]; [reflexivity | simpl; now rewrite <- IH]. Qed.

Lemma first_report_not_WNoChange k : first_report k <> Some WNoChange.
Proof.
  induction k as [|[|s|e] k IH]; simpl; try assumption; try discriminate.
  destruct (e =? EINTR); [assumption | discriminate].
Qed.

(** ** The spec's end-to-end scenarios *)

Example run_true :
  fst (run (with_argv ["prog"; "true"] (with_wait [WChanged 0] sample_world)) 1)
  = Done 0.
Proof. reflexivity. Qed.

Example run_exit_7 : fst (run sample_world 2) = Done 7.
Proof. reflexivity. Qed.

Example run_exit_7_stderr :
  In (EvStderr ("Child process exited with code 7" +++ nl))
     (trace (snd (run sample_world 2))).
Proof. simpl. intuition. Qed.

Example run_sigkill : fst (run killed_world 1) = Done 137.
Proof. reflexivity. Qed.

Example run_enoent : fst (run enoent_world 1) = Done 1.
Proof. reflexivity. Qed.

Example run_deaf_still_runs : fst (run deaf_world 2) = Done 7.
Proof. reflexivity. Qed.

(** ** Claims *)

(** C1: the exit code is a function of the child's termination alone:
    a normal exit with code [N] gives [N] (0 gives 0), death by signal
    [S] gives [128 + S], anything else gives 127. *)
Theorem exit_code_of_child_termination w fuel pid t rest :
  0 <= fst (w_bus_open w) ->
  (2 <= List.length (w_argv w))%nat ->
  w_spawn w = SpawnOk pid ->
  w_wait w = WChanged (Wait.W_encode t) :: rest ->
  Wait.valid t ->
  fst (run w (S fuel)) = Done (shell_exit_code t).
Proof.
  intros Hopen Hargc Hs Hw Ht.
  rewrite (run_reported w (S fuel) pid Hopen Hargc Hs) by (rewrite Hw; simpl; lia).
  rewrite Hw. simpl. now rewrite status_code_encode.
Qed.

Lemma exit_code_of_child_termination_witness :
  fst (run killed_world 1) = Done 137.
Proof.
  apply (exit_code_of_child_termination killed_world 0 4242
           (Wait.Signaled 9 false) []).
  - simpl. lia.
  - simpl. lia.
  - reflexivity.
  - reflexivity.
  - simpl. lia.
Defined.

(** C2: whatever the bus answers to each call, a run makes the three
    attempts, portal first, then screen saver, then power management;
    the block of the three yields no value and leaves nothing behind but
    trace entries. *)
Theorem inhibitions_attempted_in_order w fuel :
  0 <= fst (w_bus_open w) ->
  map (fun c => (fst c, DBus.destination (snd c)))
      (bus_calls (trace (snd (run w fuel))))
  = [(snd (w_bus_open w), "org.freedesktop.portal.Desktop");
     (snd (w_bus_open w), "org.freedesktop.ScreenSaver");
     (snd (w_bus_open w), "org.freedesktop.PowerManagement.Inhibit")]
  /\ forall bus st, exists evs,
       main_request_all_inhibitions w bus st = (Done tt, add_trace evs st)
       /\ map (fun c => DBus.destination (snd c)) (bus_calls evs)
          = ["org.freedesktop.portal.Desktop";
             "org.freedesktop.ScreenSaver";
             "org.freedesktop.PowerManagement.Inhibit"].
Proof.
  intros Hopen. split.
  - destruct (run_trace w fuel Hopen) as (_ & -> & _). reflexivity.
  - intros bus st. destruct (request_all_spec w bus st) as (evs & E & Hcalls & _).
    exists evs. split; [exact E|]. now rewrite Hcalls.
Qed.

Lemma inhibitions_attempted_in_order_witness :
  map (fun c => (fst c, DBus.destination (snd c)))
      (bus_calls (trace (snd (run deaf_world 3))))
  = [(1, "org.freedesktop.portal.Desktop");
     (1, "org.freedesktop.ScreenSaver");
     (1, "org.freedesktop.PowerManagement.Inhibit")]
  /\ forall bus st, exists evs,
       main_request_all_inhibitions deaf_world bus st
       = (Done tt, add_trace evs st)
       /\ map (fun c => DBus.destination (snd c)) (bus_calls evs)
          = ["org.freedesktop.portal.Desktop";
             "org.freedesktop.ScreenSaver";
             "org.freedesktop.PowerManagement.Inhibit"].
Proof.
  apply (inhibitions_attempted_in_order deaf_world 3). simpl. lia.
Defined.

(** C3, as the code has it: a status word that is neither a normal exit
    nor a signal death gives 127; the branch for a wait without a status
    (result 0) gives 1. *)
Theorem abnormal_termination_exit_code w fuel pid s :
  0 <= fst (w_bus_open w) ->
  (2 <= List.length (w_argv w))%nat ->
  w_spawn w = SpawnOk pid ->
  first_report (w_wait w) = Some (WChanged s) ->
  (interruptions (w_wait w) < fuel)%nat ->
  Wait.WIFEXITED s = false ->
  Wait.WIFSIGNALED s = false ->
  fst (run w fuel) = Done 127
  /\ forall st, fst (main_after_wait w 0 st) = Done 1.
Proof.
  intros Hopen Hargc Hs Hr Hfuel He Hsig.
  split; [|intros st; now rewrite main_after_wait_zero].
  rewrite (run_reported w fuel pid Hopen Hargc Hs Hfuel), Hr.
  unfold status_code. now rewrite He, Hsig.
Qed.

Lemma abnormal_termination_exit_code_witness :
  fst (run stopped_world 1) = Done 127
  /\ forall st, fst (main_after_wait stopped_world 0 st) = Done 1.
Proof.
  apply (abnormal_termination_exit_code stopped_world 1 4242 4991).
  - simpl. lia.
  - simpl. lia.
  - reflexivity.
  - reflexivity.
  - simpl. lia.
  - reflexivity.
  - reflexivity.
Defined.

(** C3 as stated fails: the wait fails with [ECHILD], nothing is stored
    in [wstatus], and the program classifies what the variable happened
    to hold; with a zero there it returns 0.  The branch for a wait
    result of 0 returns 1. *)
Lemma undetermined_status_not_127 :
  first_report (w_wait orphan_world) = Some (WError ECHILD)
  /\ fst (run orphan_world 1) = Done 0
  /\ fst (main_after_wait orphan_world 0 (initial orphan_world)) = Done 1.
Proof. repeat split. Qed.

(** C4: when [posix_spawnp] fails, whatever the error, the program
    writes the reason to the error stream and returns 1 at once; no wait
    is ever made. *)
Theorem spawn_failure_exits_1 w fuel err :
  0 <= fst (w_bus_open w) ->
  (2 <= List.length (w_argv w))%nat ->
  w_spawn w = SpawnFail err ->
  fst (run w fuel) = Done 1
  /\ (exists evs,
        trace (snd (run w fuel))
        = evs ++ [EvSpawn (argv w 1) (tl (w_argv w));
                  EvStderr ("Failed to start process: "
                            +++ w_strerror w (Zpos err) +++ nl)])
  /\ forall pid options, ~ In (EvWait pid options) (trace (snd (run w fuel))).
Proof.
  intros Hopen Hargc Hs.
  destruct (run_command w fuel Hopen Hargc) as (evs & -> & _ & Hall).
  destruct (run_and_wait_spawn_failed w fuel err (add_trace evs (configured w)) Hs)
    as (evs' & -> & Hdbg).
  split; [reflexivity|]. cbn [snd]. rewrite !trace_add_trace. split.
  - exists (trace (configured w) ++ evs ++ evs'). now rewrite !app_assoc.
  - intros pid options. rewrite !in_app_iff.
    intros [[Hin | Hin] | [Hin | Hin]].
    + simpl in Hin. intuition discriminate.
    + rewrite Forall_forall in Hall. apply Hall in Hin. discriminate.
    + rewrite Forall_forall in Hdbg. apply Hdbg in Hin. discriminate.
    + simpl in Hin. intuition discriminate.
Qed.

Lemma spawn_failure_exits_1_witness :
  fst (run enoent_world 3) = Done 1
  /\ (exists evs,
        trace (snd (run enoent_world 3))
        = evs ++ [EvSpawn (Some "sh") ["sh"; "-c"; "exit 7"];
                  EvStderr ("Failed to start process: errno 2" +++ nl)])
  /\ forall pid options,
       ~ In (EvWait pid options) (trace (snd (run enoent_world 3))).
Proof.
  apply (spawn_failure_exits_1 enoent_world 3 2).
  - simpl. lia.
  - simpl. lia.
  - reflexivity.
Defined.

(** C5: a wait that is interrupted [n] times before the kernel gets to
    say what it would have said at once ends in the same exit code. *)
Theorem interrupted_wait_same_exit_code w fuel pid n k r :
  0 <= fst (w_bus_open w) ->
  (2 <= List.length (w_argv w))%nat ->
  w_spawn w = SpawnOk pid ->
  first_report k = Some r ->
  (interruptions k < fuel)%nat ->
  exists code,
    fst (run (with_wait k w) fuel) = Done code
    /\ fst (run (with_wait (interrupted n ++ k) w) (n + fuel)) = Done code.
Proof.
  intros Hopen Hargc Hs Hr Hfuel.
  rewrite (run_reported (with_wait k w) fuel pid Hopen Hargc Hs Hfuel).
  rewrite (run_reported (with_wait (interrupted n ++ k) w) (n + fuel) pid
             Hopen Hargc Hs)
    by (simpl w_wait; rewrite interruptions_interrupted; lia).
  simpl w_wait. rewrite first_report_interrupted, Hr.
  destruct r as [|s|e].
  - now apply first_report_not_WNoChange in Hr.
  - eexists. split; reflexivity.
  - eexists. split; reflexivity.
Qed.

Lemma interrupted_wait_same_exit_code_witness :
  exists code,
    fst (run (with_wait [WChanged 1792] sample_world) 1) = Done code
    /\ fst (run (with_wait (interrupted 3 ++ [WChanged 1792]) sample_world) 4)
       = Done code.
Proof.
  apply (interrupted_wait_same_exit_code sample_world 1 4242 3
           [WChanged 1792] (WChanged 1792)).
  - simpl. lia.
  - simpl. lia.
  - reflexivity.
  - reflexivity.
  - simpl. lia.
Defined.

(** C6: the three calls are to a method [Inhibit]; the portal call
    carries an empty window identifier, the flags 8 and one option
    [reason]; the other two carry the reason and then the application
    identifier, both as strings. *)
Theorem inhibit_call_arguments w fuel :
  0 <= fst (w_bus_open w) ->
  map (fun c => (DBus.member (snd c), DBus.signature (snd c), DBus.body (snd c)))
      (bus_calls (trace (snd (run w fuel))))
  = [("Inhibit", "sua{sv}",
      [DBus.String_ EmptyString; DBus.Uint32 8;
       DBus.Array "{sv}"
         [DBus.DictEntry (DBus.String_ "reason")
                         (DBus.Variant "s" (DBus.String_ (reason_of w)))]]);
     ("Inhibit", "ss",
      [DBus.String_ (reason_of w);
       DBus.String_ (DBus.strempty (application_of w))]);
     ("Inhibit", "ss",
      [DBus.String_ (reason_of w);
       DBus.String_ (DBus.strempty (application_of w))])].
Proof.
  intros Hopen. destruct (run_trace w fuel Hopen) as (_ & -> & _). reflexivity.
Qed.

Lemma inhibit_call_arguments_witness :
  map (fun c => (DBus.member (snd c), DBus.signature (snd c), DBus.body (snd c)))
      (bus_calls (trace (snd (run sample_world 3))))
  = [("Inhibit", "sua{sv}",
      [DBus.String_ EmptyString; DBus.Uint32 8;
       DBus.Array "{sv}"
         [DBus.DictEntry (DBus.String_ "reason")
                         (DBus.Variant "s" (DBus.String_ "A game is running"))]]);
     ("Inhibit", "ss", [DBus.String_ "A game is running"; DBus.String_ "sh"]);
     ("Inhibit", "ss", [DBus.String_ "A game is running"; DBus.String_ "sh"])].
Proof.
  apply (inhibit_call_arguments sample_world 3). simpl. lia.
Defined.

(** C7: all three calls carry the value of [INHIBIT_REASON] if it is set
    and ["A game is running"] if not; the variable is read once, before
    the bus is opened, and the global keeps the value. *)
Theorem reason_is_environment_or_default w fuel :
  0 <= fst (w_bus_open w) ->
  let reason := match w_getenv w "INHIBIT_REASON" with
                | Some x => x
                | None => "A game is running"
                end in
  map (fun c => reason_sent (snd c)) (bus_calls (trace (snd (run w fuel))))
  = [Some reason; Some reason; Some reason]
  /\ inhibit_reason (snd (run w fuel)) = Some reason
  /\ exists evs,
       trace (snd (run w fuel))
       = [EvGetenv "INHIBIT_DEBUG"; EvGetenv "INHIBIT_REASON"; EvBusOpen] ++ evs
       /\ forall name, ~ In (EvGetenv name) evs.
Proof.
  intros Hopen reason.
  destruct (run_trace w fuel Hopen) as (Hadds & Hcalls & Hg).
  split; [now rewrite Hcalls|]. split.
  - injection Hg as _ Hr _. exact Hr.
  - apply adds_inv in Hadds as (evs & -> & Hall). exists evs.
    split; [reflexivity|]. intros name Hin.
    rewrite Forall_forall in Hall. destruct (Hall _ Hin); discriminate.
Qed.

Lemma reason_is_environment_or_default_witness :
  map (fun c => reason_sent (snd c))
      (bus_calls (trace (snd (run sample_world 3))))
  = [Some "A game is running"; Some "A game is running";
     Some "A game is running"]
  /\ inhibit_reason (snd (run sample_world 3)) = Some "A game is running"
  /\ exists evs,
       trace (snd (run sample_world 3))
       = [EvGetenv "INHIBIT_DEBUG"; EvGetenv "INHIBIT_REASON"; EvBusOpen] ++ evs
       /\ forall name, ~ In (EvGetenv name) evs.
Proof.
  apply (reason_is_environment_or_default sample_world 3). simpl. lia.
Defined.

(** C8: the application identifier is the command when there is one and
    the program's own name when there is none; the screen-saver and the
    power-management call carry it, and the global keeps it to the end. *)
Theorem application_is_command_or_program w fuel :
  0 <= fst (w_bus_open w) ->
  (forall prog, w_argv w = [prog] ->
     application (snd (run w fuel)) = Some prog
     /\ map (fun c => application_sent (snd c))
            (bus_calls (trace (snd (run w fuel))))
        = [None; Some prog; Some prog])
  /\ (forall prog command args, w_argv w = prog :: command :: args ->
        application (snd (run w fuel)) = Some command
        /\ map (fun c => application_sent (snd c))
               (bus_calls (trace (snd (run w fuel))))
           = [None; Some command; Some command]).
Proof.
  intros Hopen.
  destruct (run_trace w fuel Hopen) as (_ & Hcalls & Hg).
  injection Hg as _ _ Happ. rewrite Hcalls, Happ.
  unfold configured, application_of. cbn [application].
  split; [intros prog -> | intros prog command args ->]; split; reflexivity.
Qed.

Lemma application_is_command_or_program_witness :
  application (snd (run sample_world 3)) = Some "sh"
  /\ map (fun c => application_sent (snd c))
         (bus_calls (trace (snd (run sample_world 3))))
     = [None; Some "sh"; Some "sh"].
Proof.
  apply (proj2 (application_is_command_or_program sample_world 3
                  ltac:(simpl; lia))
               "prog" "sh" ["-c"; "exit 7"] eq_refl).
Defined.

(** C9: without a command the program has not returned after any number
    of steps; the three attempts were made, and neither a spawn nor a
    wait ever is. *)
Theorem no_command_blocks_forever w fuel :
  0 <= fst (w_bus_open w) ->
  (List.length (w_argv w) < 2)%nat ->
  fst (run w fuel) = Pending
  /\ List.length (bus_calls (trace (snd (run w fuel)))) = 3%nat
  /\ (forall file args, ~ In (EvSpawn file args) (trace (snd (run w fuel))))
  /\ (forall pid options, ~ In (EvWait pid options) (trace (snd (run w fuel)))).
Proof.
  intros Hopen Hargc.
  destruct (run_trace w fuel Hopen) as (_ & Hcalls & _).
  destruct (run_idle w fuel Hopen Hargc) as (st' & E & Hadds & _).
  rewrite Hcalls, E. cbn [fst snd]. repeat split.
  - intros file args. eapply adds_not_in; [exact Hadds | discriminate|].
    simpl. intuition discriminate.
  - intros pid options. eapply adds_not_in; [exact Hadds | discriminate|].
    simpl. intuition discriminate.
Qed.

Lemma no_command_blocks_forever_witness :
  fst (run idle_world 1000) = Pending
  /\ List.length (bus_calls (trace (snd (run idle_world 1000)))) = 3%nat
  /\ (forall file args,
        ~ In (EvSpawn file args) (trace (snd (run idle_world 1000))))
  /\ (forall pid options,
        ~ In (EvWait pid options) (trace (snd (run idle_world 1000)))).
Proof.
  apply (no_command_blocks_forever idle_world 1000).
  - simpl. lia.
  - simpl. lia.
Defined.

Lemma run_bus_failed w fuel : fst (w_bus_open w) < 0 ->
  run w fuel
  = (Done 1,
     add_trace [EvStderr ("Failed to connect to user bus: "
                          +++ w_strerror w (- fst (w_bus_open w)) +++ nl)]
               (configured w)).
Proof.
  intros Hopen. apply Z.ltb_lt in Hopen.
  unfold run, main, getenv, sd_bus_open_user.
  cbv [bind emit modify pure fputs_stderr]. rewrite Hopen, application_of_spec.
  unfold configured, reason_of.
  destruct (w_getenv w "INHIBIT_DEBUG"), (w_getenv w "INHIBIT_REASON");
    reflexivity.
Qed.

(** C10: the message of line 131 is never written.  A wait without
    [WNOHANG] on the child just spawned, retried on [EINTR], yields that
    child's identifier or -1, never 0, and what follows is the
    classification of the status word. *)
Theorem no_child_branch_unreachable w fuel :
  ~ In (EvStderr no_child_message) (trace (snd (run w fuel)))
  /\ forall (pid : positive) st,
       match TEMP_FAILURE_RETRY fuel (waitpid (Zpos pid) 0) st with
       | (Done rc, st') =>
           (rc = Zpos pid \/ rc = -1) /\ rc <> 0
           /\ fst (main_after_wait w rc st') = Done (status_code (wstatus st'))
       | (Pending, _) => True
       end.
Proof.
  split.
  - destruct (Z.lt_ge_cases (fst (w_bus_open w)) 0) as [Hopen | Hopen].
    + rewrite (run_bus_failed w fuel Hopen). simpl. intuition discriminate.
    + destruct (run_trace w fuel Hopen) as (Hadds & _).
      eapply adds_not_in; [exact Hadds | |simpl; intuition discriminate].
      intros [H | H]; discriminate H.
  - intros pid st.
    destruct (TEMP_FAILURE_RETRY fuel (waitpid (Zpos pid) 0) st)
      as [[rc|] st'] eqn:E; [|exact I].
    apply retry_wait_any in E as (_ & _ & Hrc).
    specialize (Hrc rc eq_refl).
    assert (Hnz : rc <> 0) by (destruct Hrc as [-> | ->]; discriminate).
    destruct (main_after_wait_classifies w rc st' Hnz) as (st'' & -> & _).
    auto.
Qed.

(** * Further properties *)

(** ** What each step adds to the trace *)

Lemma add_trace_nil st : add_trace [] st = st.
Proof. destruct st. unfold add_trace. simpl. now rewrite app_nil_r. Qed.

Lemma debug_exact s st :
  debug s st = (Done tt, add_trace (dbg (verbose_output st) s) st).
Proof.
  unfold debug, dbg. unfold_monad.
  destruct (verbose_output st); [reflexivity | now rewrite add_trace_nil].
Qed.

Ltac attempt_exact w st request :=
  remember (w_bus_reply w request) as reply eqn:Hreply;
  unfold_monad; destruct (verbose_output st) eqn:Hv; simpl;
  match goal with
  | |- context [w_bus_reply w ?m] => change m with request
  end;
  rewrite <- Hreply; destruct reply as [r msg]; simpl;
  unfold attempt_events; cbn [fst snd]; destruct (r <? 0);
  simpl; rewrite ?Hv; collect_trace; reflexivity.

Lemma inhibit_via_inhibit_portal_exact w bus st :
  let m := portal_request (DBus.strempty (inhibit_reason st)) in
  inhibit_via_inhibit_portal w bus st
  = (Done (negb (fst (w_bus_reply w m) <? 0)),
     add_trace
       (attempt_events (verbose_output st) bus m (w_bus_reply w m)
          "Trying to inhibit idle via org.freedesktop.portal.Inhibit interface: "
          "idle") st).
Proof.
  intros m. subst m.
  unfold inhibit_via_inhibit_portal, sd_bus_call_method.
  attempt_exact w st (portal_request (DBus.strempty (inhibit_reason st))).
Qed.

Lemma inhibit_via_screen_saver_exact w bus st :
  let m := screen_saver_request (DBus.strempty (inhibit_reason st))
                                (DBus.strempty (application st)) in
  inhibit_via_screen_saver w bus st
  = (Done (negb (fst (w_bus_reply w m) <? 0)),
     add_trace
       (attempt_events (verbose_output st) bus m (w_bus_reply w m)
          "Trying to inhibit screensaver via org.freedesktop.ScreenSaver interface: "
          "screensaver") st).
Proof.
  intros m. subst m.
  unfold inhibit_via_screen_saver, sd_bus_call_method.
  attempt_exact w st (screen_saver_request (DBus.strempty (inhibit_reason st))
                                           (DBus.strempty (application st))).
Qed.

Lemma inhibit_via_power_management_exact w bus st :
  let m := power_management_request (DBus.strempty (inhibit_reason st))
                                    (DBus.strempty (application st)) in
  inhibit_via_power_management w bus st
  = (Done (negb (fst (w_bus_reply w m) <? 0)),
     add_trace
       (attempt_events (verbose_output st) bus m (w_bus_reply w m)
          "Trying to inhibit power management via org.freedesktop.PowerManagement.Inhibit interface: "
          "power saving") st).
Proof.
  intros m. subst m.
  unfold inhibit_via_power_management, sd_bus_call_method.
  attempt_exact w st
    (power_management_request (DBus.strempty (inhibit_reason st))
                              (DBus.strempty (application st))).
Qed.

Lemma main_after_wait_exact w rc st : rc <> 0 ->
  main_after_wait w rc st
  = (Done (status_code (wstatus st)),
     add_trace (report_events w (verbose_output st) (wstatus st)) st).
Proof.
  intros Hrc. apply Z.eqb_neq in Hrc.
  unfold main_after_wait, status_code, report_events. unfold_monad.
  rewrite Hrc. cbv iota beta. cbn [negb].
  destruct (Wait.WIFEXITED (wstatus st));
    [destruct (Wait.WEXITSTATUS (wstatus st) =? 0);
     [destruct (verbose_output st); [|rewrite add_trace_nil]|]
    | destruct (Wait.WIFSIGNALED (wstatus st))];
    reflexivity.
Qed.

Lemma request_all_exact w bus st :
  main_request_all_inhibitions w bus st
  = (Done tt,
     add_trace (inhibit_events w (verbose_output st) bus (inhibit_reason st)
                               (application st)) st).
Proof.
  unfold main_request_all_inhibitions, inhibit_events.
  rewrite (bind_done _ _ _ _ _ (inhibit_via_inhibit_portal_exact w bus st)).
  rewrite (bind_done _ _ _ _ _ (inhibit_via_screen_saver_exact w bus _)).
  rewrite (bind_done _ _ _ _ _ (inhibit_via_power_management_exact w bus _)).
  unfold pure. rewrite !add_trace_add_trace, <- ?app_assoc. reflexivity.
Qed.

Lemma run_and_wait_spawned_exact w fuel pid st : w_spawn w = SpawnOk pid ->
  main_run_and_wait w fuel st
  = (rc <- TEMP_FAILURE_RETRY fuel (waitpid (Zpos pid) 0) ;;
     main_after_wait w rc)
      (add_trace (spawn_events w (verbose_output st))
                 (set_child_pid (Zpos pid) st)).
Proof.
  intros Hs. unfold main_run_and_wait, posix_spawnp, spawn_events.
  rewrite Hs. unfold_monad.
  assert (Hswap : forall p evs s,
             set_child_pid p (add_trace evs s) = add_trace evs (set_child_pid p s))
    by reflexivity.
  destruct (verbose_output st) eqn:Hv; simpl; rewrite ?Hv;
    repeat match goal with
           | |- context [log ?e ?s] => change (log e s) with (add_trace [e] s)
           end;
    rewrite ?Hswap, ?add_trace_add_trace; reflexivity.
Qed.

Lemma run_and_wait_spawn_failed_exact w fuel err st :
  w_spawn w = SpawnFail err ->
  main_run_and_wait w fuel st
  = (Done 1,
     add_trace (dbg (verbose_output st) "Starting process: "
                ++ [EvSpawn (argv w 1) (tl (w_argv w));
                    EvStderr ("Failed to start process: "
                              +++ w_strerror w (Zpos err) +++ nl)]) st).
Proof.
  intros Hs. unfold main_run_and_wait, posix_spawnp. rewrite Hs. unfold_monad.
  destruct (verbose_output st) eqn:Hv; cbn; collect_trace; reflexivity.
Qed.

(** The retried wait in full: result, status word, calls made. *)
Lemma retry_wait_exact pid : pid <> -1 -> forall k fuel st,
  kernel st = k -> (interruptions k < fuel)%nat ->
  exists st',
    TEMP_FAILURE_RETRY fuel (waitpid pid 0) st
    = (report_result pid (first_report k), st')
    /\ wstatus st' = report_status (wstatus st) (first_report k)
    /\ trace st' = trace st ++ repeat (EvWait pid 0) (S (interruptions k))
    /\ globals st' = globals st.
Proof.
  intros Hpid. induction k as [|ev k IH]; intros fuel st Hk Hfuel.
  - destruct fuel as [|fuel]; [inversion Hfuel|].
    cbn [TEMP_FAILURE_RETRY]. unfold bind at 1, waitpid. rewrite Hk. simpl.
    eexists. repeat split.
  - destruct ev as [|s|e].
    + destruct fuel as [|fuel]; [inversion Hfuel|].
      destruct (IH (S fuel) (set_kernel k st) eq_refl Hfuel)
        as (st' & E & Hw & Ht & Hg).
      exists st'. split; [|repeat split; assumption].
      cbn [first_report]. rewrite <- E.
      cbn [TEMP_FAILURE_RETRY]. unfold bind at 1 3, waitpid. rewrite Hk.
      cbn [wait4]. change (Z.land 0 Wait.WNOHANG =? 0) with true. cbv iota.
      change (log (EvWait pid 0) (set_kernel k st))
        with (set_kernel k (log (EvWait pid 0) st)).
      rewrite wait4_kernel. reflexivity.
    + destruct fuel as [|fuel]; [inversion Hfuel|].
      cbn [TEMP_FAILURE_RETRY]. unfold bind at 1, waitpid. rewrite Hk.
      cbn [wait4]. cbv [bind gets pure].
      apply Z.eqb_neq in Hpid. rewrite Hpid. simpl.
      eexists. repeat split.
    + simpl in Hfuel |- *. destruct fuel as [|fuel].
      { destruct (e =? EINTR); inversion Hfuel. }
      cbn [TEMP_FAILURE_RETRY]. unfold bind at 1, waitpid. rewrite Hk.
      cbn [wait4]. cbv [bind gets pure]. simpl.
      destruct (e =? EINTR) eqn:He.
      * destruct (IH fuel (set_errno e (set_kernel k (log (EvWait pid 0) st)))
                    eq_refl ltac:(lia)) as (st' & E & Hw & Ht & Hg).
        exists st'. split; [exact E|]. split; [exact Hw|]. split; [|exact Hg].
        rewrite Ht. simpl. now rewrite <- app_assoc.
      * eexists. repeat split.
Qed.

Lemma run_command_exact w fuel :
  0 <= fst (w_bus_open w) -> (2 <= List.length (w_argv w))%nat ->
  run w fuel
  = main_run_and_wait w fuel
      (add_trace (inhibit_events w (verbose_output (configured w))
                    (snd (w_bus_open w)) (Some (reason_of w))
                    (application_of w))
                 (configured w)).
Proof.
  intros Hopen Hargc. rewrite (run_bus_opened w fuel Hopen).
  rewrite (bind_done _ _ _ _ _ (request_all_exact w _ _)).
  replace (argc w <? 2) with false
    by (symmetry; apply Z.ltb_ge; unfold argc; lia).
  reflexivity.
Qed.

Lemma run_and_wait_reported_exact w fuel pid st r :
  w_spawn w = SpawnOk pid ->
  (interruptions (kernel st) < fuel)%nat ->
  first_report (kernel st) = Some r ->
  let ws := report_status (wstatus st) (Some r) in
  exists st',
    main_run_and_wait w fuel st = (Done (status_code ws), st')
    /\ trace st'
       = trace st ++ spawn_events w (verbose_output st)
         ++ repeat (EvWait (Zpos pid) 0) (S (interruptions (kernel st)))
         ++ report_events w (verbose_output st) ws
    /\ wstatus st' = ws.
Proof.
  intros Hs Hfuel Hr ws.
  rewrite (run_and_wait_spawned_exact w fuel pid st Hs).
  destruct (retry_wait_exact (Zpos pid) ltac:(discriminate) (kernel st) fuel
              (add_trace (spawn_events w (verbose_output st))
                         (set_child_pid (Zpos pid) st)) eq_refl Hfuel)
    as (st3 & E & W3 & T3 & G3).
  rewrite Hr in E, W3. injection G3 as Hv _ _.
  change (wstatus st3 = ws) in W3.
  change (verbose_output st3 = verbose_output st) in Hv.
  change (trace st3
          = (trace st ++ spawn_events w (verbose_output st))
            ++ repeat (EvWait (Zpos pid) 0) (S (interruptions (kernel st))))
    in T3.
  assert (Hrc : exists rc, report_result (Zpos pid) (Some r) = Done rc /\ rc <> 0).
  { destruct r as [|s|e]; [now apply first_report_not_WNoChange in Hr | |];
      eexists; split; try reflexivity; discriminate. }
  destruct Hrc as (rc & Hres & Hrc). rewrite Hres in E.
  rewrite (bind_done _ _ _ _ _ E), (main_after_wait_exact w rc st3 Hrc).
  rewrite W3, Hv. eexists. split; [reflexivity|]. split; [|exact W3].
  rewrite trace_add_trace, T3. now rewrite <- !app_assoc.
Qed.

(** A run with a command, a child and a report, event for event. *)
Lemma run_reported_exact w fuel pid r :
  0 <= fst (w_bus_open w) -> (2 <= List.length (w_argv w))%nat ->
  w_spawn w = SpawnOk pid -> (interruptions (w_wait w) < fuel)%nat ->
  first_report (w_wait w) = Some r ->
  fst (run w fuel) = Done (status_code (report_status (snd (w_stack w)) (Some r)))
  /\ trace (snd (run w fuel)) = reported_trace w pid r.
Proof.
  intros Hopen Hargc Hs Hfuel Hr.
  rewrite (run_command_exact w fuel Hopen Hargc).
  destruct (run_and_wait_reported_exact w fuel pid
              (add_trace (inhibit_events w (verbose_output (configured w))
                            (snd (w_bus_open w)) (Some (reason_of w))
                            (application_of w)) (configured w)) r Hs Hfuel Hr)
    as (st' & -> & T & _).
  split; [reflexivity|]. cbn [snd]. rewrite T, trace_add_trace.
  unfold reported_trace. now rewrite <- !app_assoc.
Qed.

(** ** The exit code *)

Lemma WEXITSTATUS_range s : 0 <= Wait.WEXITSTATUS s <= 255.
Proof.
  unfold Wait.WEXITSTATUS. rewrite Z.shiftr_land.
  change (Z.shiftr 65280 8) with (Z.ones 8). rewrite Z.land_ones by lia.
  change (2 ^ 8) with 256.
  assert (H : 0 <= Z.shiftr s 8 mod 256 < 256)
    by (apply Z.mod_pos_bound; reflexivity).
  revert H. generalize (Z.shiftr s 8 mod 256). intros; lia.
Qed.

Lemma WTERMSIG_range s : 0 <= Wait.WTERMSIG s <= 127.
Proof.
  unfold Wait.WTERMSIG. change (Z.land s 127) with (Z.land s (Z.ones 7)).
  rewrite Z.land_ones by lia.
  change (2 ^ 7) with 128.
  assert (H : 0 <= s mod 128 < 128) by (apply Z.mod_pos_bound; reflexivity).
  revert H. generalize (s mod 128). intros; lia.
Qed.

Lemma status_code_range s : 0 <= status_code s <= 255.
Proof.
  unfold status_code.
  pose proof (WEXITSTATUS_range s). pose proof (WTERMSIG_range s).
  destruct (Wait.WIFEXITED s); [lia|].
  destruct (Wait.WIFSIGNALED s); lia.
Qed.

Lemma status_code_zero s :
  status_code s = 0 -> Wait.WIFEXITED s = true /\ Wait.WEXITSTATUS s = 0.
Proof.
  unfold status_code. pose proof (WTERMSIG_range s).
  destruct (Wait.WIFEXITED s); [auto|].
  destruct (Wait.WIFSIGNALED s); lia.
Qed.

Lemma run_and_wait_outcome w fuel st :
  fst (main_run_and_wait w fuel st) = Pending
  \/ (fst (main_run_and_wait w fuel st) = Done 1
      /\ exists err, w_spawn w = SpawnFail err)
  \/ (exists pid, w_spawn w = SpawnOk pid)
     /\ fst (main_run_and_wait w fuel st)
        = Done (status_code (wstatus (snd (main_run_and_wait w fuel st)))).
Proof.
  destruct (w_spawn w) as [pid|err] eqn:Hs.
  - rewrite (run_and_wait_spawned_exact w fuel pid st Hs). unfold bind.
    destruct (TEMP_FAILURE_RETRY fuel (waitpid (Zpos pid) 0) _)
      as [[rc|] st3] eqn:E; [|now left].
    apply retry_wait_any in E as (_ & _ & Hrc).
    rewrite main_after_wait_exact
      by (destruct (Hrc rc eq_refl) as [-> | ->]; discriminate).
    right. right. split; [now exists pid | reflexivity].
  - rewrite (run_and_wait_spawn_failed_exact w fuel err st Hs).
    right. left. split; [reflexivity | now exists err].
Qed.

(** How a run can end. *)
Lemma run_outcome w fuel :
  fst (run w fuel) = Pending
  \/ (fst (run w fuel) = Done 1
      /\ (fst (w_bus_open w) < 0 \/ exists err, w_spawn w = SpawnFail err))
  \/ (0 <= fst (w_bus_open w) /\ (2 <= List.length (w_argv w))%nat
      /\ exists pid, w_spawn w = SpawnOk pid)
     /\ fst (run w fuel) = Done (status_code (wstatus (snd (run w fuel)))).
Proof.
  destruct (Z.lt_ge_cases (fst (w_bus_open w)) 0) as [Hopen | Hopen].
  { rewrite (run_bus_failed w fuel Hopen). right. left. auto. }
  destruct (Nat.lt_ge_cases (List.length (w_argv w)) 2) as [Hargc | Hargc].
  { destruct (run_idle w fuel Hopen Hargc) as (st' & -> & _). now left. }
  rewrite (run_command_exact w fuel Hopen Hargc).
  destruct (run_and_wait_outcome w fuel
              (add_trace (inhibit_events w (verbose_output (configured w))
                            (snd (w_bus_open w)) (Some (reason_of w))
                            (application_of w)) (configured w)))
    as [H | [[H Hs] | [Hs H]]]; auto 6.
Qed.

(** ** Properties of whole runs *)

(** X1: without a session bus the program gives up at once: it writes
    the reason, returns 1, and does nothing else; the command, if there is
    one, is not started, and without a command the program does not stay. *)
Theorem bus_failure_is_fatal w fuel :
  fst (w_bus_open w) < 0 ->
  fst (run w fuel) = Done 1
  /\ trace (snd (run w fuel))
     = [EvGetenv "INHIBIT_DEBUG"; EvGetenv "INHIBIT_REASON"; EvBusOpen;
        EvStderr ("Failed to connect to user bus: "
                  +++ w_strerror w (- fst (w_bus_open w)) +++ nl)].
Proof.
  intros Hopen. rewrite (run_bus_failed w fuel Hopen). split; reflexivity.
Qed.

Lemma bus_failure_is_fatal_witness :
  fst (run busless_world 5) = Done 1
  /\ trace (snd (run busless_world 5))
     = [EvGetenv "INHIBIT_DEBUG"; EvGetenv "INHIBIT_REASON"; EvBusOpen;
        EvStderr ("Failed to connect to user bus: errno 111" +++ nl)].
Proof.
  apply (bus_failure_is_fatal busless_world 5). simpl. lia.
Defined.

(** X2: whatever the child's status word and whatever else happens, an
    exit code the program returns is between 0 and 255. *)
Theorem exit_code_is_a_byte w fuel code :
  fst (run w fuel) = Done code -> 0 <= code <= 255.
Proof.
  intros H. destruct (run_outcome w fuel) as [E | [[E _] | [_ E]]];
    rewrite E in H; inversion H; subst; [lia | apply status_code_range].
Qed.

Lemma exit_code_is_a_byte_witness :
  fst (run sample_world 2) = Done 7 /\ 0 <= 7 <= 255.
Proof.
  split; [reflexivity|].
  apply (exit_code_is_a_byte sample_world 2 7). reflexivity.
Defined.

(** X3: the program returns 0 only if it got a bus, was given a command,
    spawned it, and the status word it classified says that the child
    exited with code 0. *)
Theorem exit_code_zero_means_child_exited_zero w fuel :
  fst (run w fuel) = Done 0 ->
  0 <= fst (w_bus_open w)
  /\ (2 <= List.length (w_argv w))%nat
  /\ (exists pid, w_spawn w = SpawnOk pid)
  /\ Wait.WIFEXITED (wstatus (snd (run w fuel))) = true
  /\ Wait.WEXITSTATUS (wstatus (snd (run w fuel))) = 0.
Proof.
  intros H. destruct (run_outcome w fuel) as [E | [[E _] | [(Ho & Ha & Hs) E]]];
    rewrite E in H; try discriminate.
  injection H as H. apply status_code_zero in H. tauto.
Qed.

Lemma exit_code_zero_means_child_exited_zero_witness :
  0 <= fst (w_bus_open quiet_world)
  /\ (2 <= List.length (w_argv quiet_world))%nat
  /\ (exists pid, w_spawn quiet_world = SpawnOk pid)
  /\ Wait.WIFEXITED (wstatus (snd (run quiet_world 1))) = true
  /\ Wait.WEXITSTATUS (wstatus (snd (run quiet_world 1))) = 0.
Proof.
  apply (exit_code_zero_means_child_exited_zero quiet_world 1). reflexivity.
Defined.

(** ** Decoding the status word *)

Lemma decode_exited code : 0 <= code < 256 ->
  Wait.WIFEXITED (Wait.W_encode (Wait.Exited code)) = true
  /\ Wait.WEXITSTATUS (Wait.W_encode (Wait.Exited code)) = code.
Proof.
  intros H.
  pose proof (Zrange_forallb
                (fun c => Wait.WIFEXITED (Wait.W_encode (Wait.Exited c))
                          && (Wait.WEXITSTATUS (Wait.W_encode (Wait.Exited c))
                              =? c)) 0 256 ltac:(vm_compute; reflexivity)
                code ltac:(lia)) as Hc.
  apply andb_true_iff in Hc as [H1 H2]. apply Z.eqb_eq in H2. auto.
Qed.

Lemma decode_signaled sig core : 1 <= sig < 127 ->
  Wait.WIFEXITED (Wait.W_encode (Wait.Signaled sig core)) = false
  /\ Wait.WIFSIGNALED (Wait.W_encode (Wait.Signaled sig core)) = true
  /\ Wait.WTERMSIG (Wait.W_encode (Wait.Signaled sig core)) = sig.
Proof.
  intros H.
  pose proof (Zrange_forallb
                (fun s =>
                   negb (Wait.WIFEXITED (Wait.W_encode (Wait.Signaled s core)))
                   && Wait.WIFSIGNALED (Wait.W_encode (Wait.Signaled s core))
                   && (Wait.WTERMSIG (Wait.W_encode (Wait.Signaled s core))
                       =? s)) 1 126
                ltac:(destruct core; vm_compute; reflexivity)
                sig ltac:(lia)) as Hc.
  apply andb_true_iff in Hc as [Hc H3].
  apply andb_true_iff in Hc as [H1 H2].
  apply negb_true_iff in H1. apply Z.eqb_eq in H3. auto.
Qed.

Lemma decode_stopped sig : 1 <= sig < 256 ->
  Wait.WIFEXITED (Wait.W_encode (Wait.Stopped sig)) = false
  /\ Wait.WIFSIGNALED (Wait.W_encode (Wait.Stopped sig)) = false.
Proof.
  intros H.
  pose proof (Zrange_forallb
                (fun s =>
                   negb (Wait.WIFEXITED (Wait.W_encode (Wait.Stopped s)))
                   && negb (Wait.WIFSIGNALED (Wait.W_encode (Wait.Stopped s))))
                1 255 ltac:(vm_compute; reflexivity) sig ltac:(lia)) as Hc.
  apply andb_true_iff in Hc as [H1 H2].
  apply negb_true_iff in H1. apply negb_true_iff in H2. auto.
Qed.

Lemma report_events_encode w v t : Wait.valid t ->
  report_events w v (Wait.W_encode t) = child_report w v t.
Proof.
  destruct t as [code|sig core|sig|]; simpl Wait.valid; intros H;
    unfold report_events, child_report.
  - destruct (decode_exited code H) as [-> ->]. reflexivity.
  - destruct (decode_signaled sig core H) as (-> & -> & ->). reflexivity.
  - destruct (decode_stopped sig H) as [-> ->]. reflexivity.
  - reflexivity.
Qed.

(** X4: what became of the child is on the error stream, right after the
    wait that reaped it: the exit code if it is not 0, the name of the
    signal that killed it, or that it ended abnormally; an exit with
    code 0 is mentioned only when [INHIBIT_DEBUG] is set. *)
Theorem child_termination_is_reported w fuel pid t rest :
  0 <= fst (w_bus_open w) ->
  (2 <= List.length (w_argv w))%nat ->
  w_spawn w = SpawnOk pid ->
  w_wait w = WChanged (Wait.W_encode t) :: rest ->
  Wait.valid t ->
  exists evs,
    trace (snd (run w (S fuel)))
    = evs ++ [EvWait (Zpos pid) 0] ++ child_report w (verbose_of w) t.
Proof.
  intros Hopen Hargc Hs Hw Ht.
  destruct (run_reported_exact w (S fuel) pid (WChanged (Wait.W_encode t))
              Hopen Hargc Hs) as [_ ->];
    [rewrite Hw; simpl; lia | now rewrite Hw |].
  unfold reported_trace. rewrite Hw. cbn [interruptions repeat report_status].
  rewrite report_events_encode by assumption.
  eexists. rewrite !app_assoc. reflexivity.
Qed.

Lemma child_termination_is_reported_witness :
  exists evs,
    trace (snd (run killed_world 1))
    = evs ++ [EvWait 4242 0]
      ++ [EvStderr ("Child process killed by signal signal 9" +++ nl)].
Proof.
  apply (child_termination_is_reported killed_world 0 4242
           (Wait.Signaled 9 false) []).
  - simpl. lia.
  - simpl. lia.
  - reflexivity.
  - reflexivity.
  - simpl. lia.
Defined.

(** ** What is in a trace *)

Lemma filter_none {A} (f : A -> bool) l :
  Forall (fun x => f x = false) l -> filter f l = [].
Proof.
  induction 1 as [|x l Hx _ IH]; [reflexivity|]. simpl. now rewrite Hx.
Qed.

Lemma dbg_chatter v s : Forall (fun e => chatter e = true) (dbg v s).
Proof. destruct v; repeat constructor. Qed.

Lemma attempt_events_chatter v bus m reply trying what :
  Forall (fun e => chatter e = true) (attempt_events v bus m reply trying what).
Proof.
  unfold attempt_events. rewrite !Forall_app. split; [apply dbg_chatter|].
  split; [repeat constructor|].
  destruct (fst reply <? 0); [rewrite Forall_app; split|];
    try apply dbg_chatter. repeat constructor.
Qed.

Lemma inhibit_events_chatter w v bus reason app :
  Forall (fun e => chatter e = true) (inhibit_events w v bus reason app).
Proof.
  unfold inhibit_events. rewrite !Forall_app.
  repeat split; apply attempt_events_chatter.
Qed.

Lemma report_events_chatter w v ws :
  Forall (fun e => chatter e = true) (report_events w v ws).
Proof.
  unfold report_events.
  destruct (Wait.WIFEXITED ws);
    [destruct (Wait.WEXITSTATUS ws =? 0) | destruct (Wait.WIFSIGNALED ws)];
    try apply dbg_chatter; repeat constructor.
Qed.

Lemma report_events_stderr w v ws :
  Forall (fun e => is_stderr e = true) (report_events w v ws).
Proof.
  unfold report_events.
  destruct (Wait.WIFEXITED ws);
    [destruct (Wait.WEXITSTATUS ws =? 0); [destruct v|]
    | destruct (Wait.WIFSIGNALED ws)];
    repeat constructor.
Qed.

Lemma chatter_no_child_call l :
  Forall (fun e => chatter e = true) l -> filter is_child_call l = [].
Proof.
  intros H. apply filter_none. eapply Forall_impl; [|exact H].
  now intros [] He.
Qed.

Lemma filter_waits pid n :
  filter is_child_call (repeat (EvWait pid 0) n) = repeat (EvWait pid 0) n.
Proof. induction n as [|n IH]; [reflexivity | simpl; now rewrite IH]. Qed.

(** X5: in a run whose wait ends with a report, the calls that concern
    the child are one spawn of [argv[1]] with the arguments [argv + 1],
    then waits on the child that was spawned, all blocking, one more than
    there were interruptions. *)
Theorem child_calls_of_a_run w fuel pid r :
  0 <= fst (w_bus_open w) ->
  (2 <= List.length (w_argv w))%nat ->
  w_spawn w = SpawnOk pid ->
  (interruptions (w_wait w) < fuel)%nat ->
  first_report (w_wait w) = Some r ->
  filter is_child_call (trace (snd (run w fuel)))
  = EvSpawn (argv w 1) (tl (w_argv w))
    :: repeat (EvWait (Zpos pid) 0) (S (interruptions (w_wait w))).
Proof.
  intros Hopen Hargc Hs Hfuel Hr.
  destruct (run_reported_exact w fuel pid r Hopen Hargc Hs Hfuel Hr) as [_ ->].
  unfold reported_trace, spawn_events. rewrite !filter_app.
  rewrite (chatter_no_child_call _ (inhibit_events_chatter _ _ _ _ _)).
  rewrite (chatter_no_child_call _ (report_events_chatter _ _ _)).
  repeat rewrite (chatter_no_child_call _ (dbg_chatter _ _)).
  rewrite filter_waits, !app_nil_r. reflexivity.
Qed.

Lemma child_calls_of_a_run_witness :
  filter is_child_call (trace (snd (run sample_world 2)))
  = EvSpawn (Some "sh") ["sh"; "-c"; "exit 7"]
    :: repeat (EvWait 4242 0) 2.
Proof.
  apply (child_calls_of_a_run sample_world 2 4242 (WChanged 1792)).
  - simpl. lia.
  - simpl. lia.
  - reflexivity.
  - simpl. lia.
  - reflexivity.
Defined.

(** X6: a successful run is silent unless asked otherwise: with
    [INHIBIT_DEBUG] unset, no bus call failing and a child that exits with
    code 0, the trace is the start-up, the three bus calls, the spawn and
    the waits; nothing goes to the error stream. *)
Theorem quiet_success w fuel pid s :
  0 <= fst (w_bus_open w) ->
  (2 <= List.length (w_argv w))%nat ->
  w_spawn w = SpawnOk pid ->
  (interruptions (w_wait w) < fuel)%nat ->
  first_report (w_wait w) = Some (WChanged s) ->
  Wait.WIFEXITED s = true ->
  Wait.WEXITSTATUS s = 0 ->
  w_getenv w "INHIBIT_DEBUG" = None ->
  (forall m, 0 <= fst (w_bus_reply w m)) ->
  fst (run w fuel) = Done 0
  /\ trace (snd (run w fuel))
     = [EvGetenv "INHIBIT_DEBUG"; EvGetenv "INHIBIT_REASON"; EvBusOpen]
       ++ map (fun c => EvBusCall (fst c) (snd c))
              (requests (snd (w_bus_open w)) (Some (reason_of w))
                        (application_of w))
       ++ [EvSpawn (argv w 1) (tl (w_argv w))]
       ++ repeat (EvWait (Zpos pid) 0) (S (interruptions (w_wait w))).
Proof.
  intros Hopen Hargc Hs Hfuel Hr He Hx Hdebug Hreply.
  destruct (run_reported_exact w fuel pid (WChanged s)
              Hopen Hargc Hs Hfuel Hr) as [-> ->].
  split.
  - unfold status_code. cbn [report_status]. now rewrite He, Hx.
  - unfold reported_trace, inhibit_events, attempt_events, spawn_events,
      report_events, configured.
    cbn [verbose_output trace report_status]. rewrite Hdebug, He, Hx.
    repeat match goal with
           | |- context [fst (w_bus_reply w ?m) <? 0] =>
               replace (fst (w_bus_reply w m) <? 0) with false
                 by (symmetry; apply Z.ltb_ge; apply Hreply)
           end.
    cbn [dbg app Z.eqb requests map fst snd]. now rewrite app_nil_r.
Qed.

Lemma quiet_success_witness :
  fst (run quiet_world 1) = Done 0
  /\ trace (snd (run quiet_world 1))
     = [EvGetenv "INHIBIT_DEBUG"; EvGetenv "INHIBIT_REASON"; EvBusOpen]
       ++ map (fun c => EvBusCall (fst c) (snd c))
              (requests 1 (Some "A game is running") (Some "sh"))
       ++ [EvSpawn (Some "sh") ["sh"; "-c"; "exit 7"]]
       ++ repeat (EvWait 4242 0) 1.
Proof.
  apply (quiet_success quiet_world 1 4242 0).
  - simpl. lia.
  - simpl. lia.
  - reflexivity.
  - simpl. lia.
  - reflexivity.
  - reflexivity.
  - reflexivity.
  - reflexivity.
  - intros m. simpl. lia.
Defined.

Lemma run_and_wait_after_spawn w fuel st :
  exists evs2,
    trace (snd (main_run_and_wait w fuel st))
    = trace st ++ dbg (verbose_output st) "Starting process: "
      ++ EvSpawn (argv w 1) (tl (w_argv w)) :: evs2
    /\ Forall (fun e => is_spawn e = false /\ is_bus_call e = false) evs2.
Proof.
  destruct (w_spawn w) as [pid|err] eqn:Hs.
  - rewrite (run_and_wait_spawned_exact w fuel pid st Hs). unfold bind.
    destruct (TEMP_FAILURE_RETRY fuel (waitpid (Zpos pid) 0) _)
      as [o st3] eqn:E.
    apply retry_wait_any in E as (Hadds & Hg & Hrc).
    apply adds_inv in Hadds as (waits & Ht & Hwaits).
    rewrite trace_add_trace in Ht. unfold spawn_events in Ht.
    injection Hg as Hv _ _. change (verbose_output st3 = verbose_output st) in Hv.
    assert (Hw : Forall (fun e => is_spawn e = false /\ is_bus_call e = false)
                        waits)
      by (eapply Forall_impl; [|exact Hwaits]; now intros e ->).
    assert (Hd : forall v s,
               Forall (fun e => is_spawn e = false /\ is_bus_call e = false)
                      (dbg v s))
      by (intros [] s; repeat constructor).
    destruct o as [rc|].
    + rewrite main_after_wait_exact
        by (destruct (Hrc rc eq_refl) as [-> | ->]; discriminate).
      cbn [snd]. rewrite trace_add_trace, Ht.
      exists (dbg (verbose_output st) ("OK" +++ nl) ++ waits
              ++ report_events w (verbose_output st3) (wstatus st3)).
      split; [now rewrite <- !app_assoc|].
      rewrite !Forall_app. repeat split; auto.
      eapply Forall_impl; [|apply report_events_stderr].
      now intros [] He.
    + cbn [snd]. rewrite Ht.
      exists (dbg (verbose_output st) ("OK" +++ nl) ++ waits).
      split; [now rewrite <- !app_assoc|].
      rewrite Forall_app. auto.
  - rewrite (run_and_wait_spawn_failed_exact w fuel err st Hs).
    cbn [snd]. rewrite trace_add_trace. eexists.
    split; [reflexivity | repeat constructor].
Qed.

(** X7: with a command, every run spawns it once, under its own name and
    with the arguments that follow it; the three bus calls have all been
    made by then, and none is made after. *)
Theorem inhibitions_precede_the_spawn w fuel prog command args :
  0 <= fst (w_bus_open w) ->
  w_argv w = prog :: command :: args ->
  exists evs1 evs2,
    trace (snd (run w fuel))
    = evs1 ++ EvSpawn (Some command) (command :: args) :: evs2
    /\ bus_calls evs1
       = requests (snd (w_bus_open w)) (Some (reason_of w)) (Some command)
    /\ Forall (fun e => is_spawn e = false) evs1
    /\ Forall (fun e => is_spawn e = false /\ is_bus_call e = false) evs2.
Proof.
  intros Hopen Hargv.
  assert (Hargc : (2 <= List.length (w_argv w))%nat)
    by (rewrite Hargv; simpl; lia).
  rewrite (run_command_exact w fuel Hopen Hargc).
  destruct (run_and_wait_after_spawn w fuel
              (add_trace (inhibit_events w (verbose_output (configured w))
                            (snd (w_bus_open w)) (Some (reason_of w))
                            (application_of w)) (configured w)))
    as (evs2 & -> & Hevs2).
  destruct (request_all_spec w (snd (w_bus_open w)) (configured w))
    as (evs & E & Hcalls & _).
  rewrite request_all_exact in E. injection E as E.
  rewrite <- E in Hcalls. clear E evs.
  cbn [configured inhibit_reason application] in Hcalls.
  unfold argv. unfold application_of in *. rewrite Hargv in *.
  cbn [nth_error tl].
  eexists. exists evs2. split; [|split; [|split; [|exact Hevs2]]].
  - rewrite trace_add_trace, !app_assoc. reflexivity.
  - rewrite !bus_calls_app.
    replace (bus_calls (dbg _ "Starting process: ")) with (@nil (Z * DBus.message))
      by (now destruct (verbose_output _)).
    rewrite app_nil_r.
    change (bus_calls (trace (configured w))) with (@nil (Z * DBus.message)).
    exact Hcalls.
  - rewrite !Forall_app. repeat split.
    + repeat constructor.
    + eapply Forall_impl; [|apply inhibit_events_chatter]. now intros [] He.
    + eapply Forall_impl; [|apply dbg_chatter]. now intros [] He.
Qed.

Lemma inhibitions_precede_the_spawn_witness :
  exists evs1 evs2,
    trace (snd (run sample_world 2))
    = evs1 ++ EvSpawn (Some "sh") ["sh"; "-c"; "exit 7"] :: evs2
    /\ bus_calls evs1 = requests 1 (Some "A game is running") (Some "sh")
    /\ Forall (fun e => is_spawn e = false) evs1
    /\ Forall (fun e => is_spawn e = false /\ is_bus_call e = false) evs2.
Proof.
  apply (inhibitions_precede_the_spawn sample_world 2 "prog" "sh"
           ["-c"; "exit 7"]).
  - simpl. lia.
  - reflexivity.
Defined.

Lemma attempt_failure_in v bus m reply trying what : fst reply < 0 ->
  In (EvStderr ("Failed to inhibit " +++ what +++ ": "
                +++ fmt_s (snd reply) +++ nl))
     (attempt_events v bus m reply trying what).
Proof.
  intros H. apply Z.ltb_lt in H. unfold attempt_events. rewrite H.
  rewrite !in_app_iff. right. right. right. now left.
Qed.

Lemma run_prefix w fuel : 0 <= fst (w_bus_open w) ->
  exists rest,
    trace (snd (run w fuel))
    = trace (configured w)
      ++ inhibit_events w (verbose_of w) (snd (w_bus_open w))
                        (Some (reason_of w)) (application_of w)
      ++ rest.
Proof.
  intros Hopen. rewrite (run_bus_opened w fuel Hopen).
  rewrite (bind_done _ _ _ _ _ (request_all_exact w _ _)).
  match goal with
  | |- context [bind ?m ?k ?s] =>
      assert (Hadds : adds any_phase (trace s) (trace (snd (bind m k s))))
  end.
  { destruct (argc w <? 2).
    - destruct (forever_pause fuel
                  (add_trace (inhibit_events w (verbose_output (configured w))
                                (snd (w_bus_open w))
                                (inhibit_reason (configured w))
                                (application (configured w))) (configured w)))
        as (st' & E & Hadds & _).
      rewrite (bind_pending _ _ _ _ E).
      eapply adds_weaken; [|exact Hadds]. intros e ->. now left.
    - unfold bind at 1, pure.
      eapply adds_weaken; [|apply run_and_wait_any]. intros e He. now right. }
  apply adds_inv in Hadds as (rest & -> & _).
  exists rest. rewrite trace_add_trace, <- app_assoc. reflexivity.
Qed.

(** X8: an attempt that fails is reported, whatever the verbosity: for
    each of the three requests to which the bus answers with an error, the
    error stream gets the line that names the mechanism and carries the
    message of the error. *)
Theorem failed_attempts_are_reported w fuel :
  0 <= fst (w_bus_open w) ->
  let reason := reason_of w in
  let app := DBus.strempty (application_of w) in
  let said s := In (EvStderr s) (trace (snd (run w fuel))) in
  (forall r, r = w_bus_reply w (portal_request reason) -> fst r < 0 ->
     said ("Failed to inhibit idle: " +++ fmt_s (snd r) +++ nl))
  /\ (forall r, r = w_bus_reply w (screen_saver_request reason app) ->
        fst r < 0 ->
        said ("Failed to inhibit screensaver: " +++ fmt_s (snd r) +++ nl))
  /\ (forall r, r = w_bus_reply w (power_management_request reason app) ->
        fst r < 0 ->
        said ("Failed to inhibit power saving: " +++ fmt_s (snd r) +++ nl)).
Proof.
  intros Hopen reason app said. subst said.
  destruct (run_prefix w fuel Hopen) as (rest & ->).
  unfold inhibit_events.
  repeat split; intros r -> Hr; rewrite !in_app_iff; right; left.
  - left. now apply (attempt_failure_in _ _ _ _ _ "idle").
  - right. left. now apply (attempt_failure_in _ _ _ _ _ "screensaver").
  - right. right. now apply (attempt_failure_in _ _ _ _ _ "power saving").
Qed.

Lemma failed_attempts_are_reported_witness :
  In (EvStderr ("Failed to inhibit screensaver: The name is not activatable"
                +++ nl))
     (trace (snd (run sample_world 2))).
Proof.
  apply (proj1 (proj2 (failed_attempts_are_reported sample_world 2
                         ltac:(simpl; lia)))
               (-2, Some "The name is not activatable") eq_refl).
  simpl. lia.
Defined.

(** ** What does not depend on the verbosity or on the bus *)

Section Respects.

Variable keep : event -> bool.

Lemma alike_log e st st' : alike keep st st' -> alike keep (log e st) (log e st').
Proof.
  intros (Hc & Ht & Hv). split; [exact Hc|]. split; [|exact Hv].
  simpl. now rewrite !filter_app, Ht.
Qed.

Lemma respects_pure {A} (a : A) : respects keep (pure a).
Proof. intros st st' H. split; [reflexivity | exact H]. Qed.

Lemma respects_pending {A} : respects keep (@pending A).
Proof. intros st st' H. split; [reflexivity | exact H]. Qed.

Lemma respects_bind {A B} (m : M A) (k : A -> M B) :
  respects keep m -> (forall a, respects keep (k a)) -> respects keep (bind m k).
Proof.
  intros Hm Hk st st' H. unfold bind.
  destruct (Hm st st' H) as [Hr Hs].
  destruct (m st) as [[a|] s1], (m st') as [[a'|] s1']; simpl in Hr, Hs;
    try discriminate.
  - injection Hr as <-. now apply Hk.
  - split; [reflexivity | exact Hs].
Qed.

Lemma respects_gets {A} (f : state -> A) :
  (forall st st', core st = core st' -> f st = f st') -> respects keep (gets f).
Proof.
  intros Hf st st' H. split; [|exact H].
  simpl. f_equal. apply Hf, H.
Qed.

Lemma respects_emit e : respects keep (emit e).
Proof. intros st st' H. split; [reflexivity | now apply alike_log]. Qed.

Lemma respects_modify f :
  (forall st st', alike keep st st' -> alike keep (f st) (f st')) ->
  respects keep (modify f).
Proof. intros Hf st st' H. split; [reflexivity | now apply Hf]. Qed.

Lemma respects_debug s : debug_message s = true -> respects keep (debug s).
Proof.
  intros Hs st st' H. unfold debug. unfold_monad.
  destruct H as (Hc & Ht & [Hv | Hq]).
  - assert (Ha : alike keep st st') by (split; [|split]; auto).
    rewrite <- Hv.
    destruct (verbose_output st); (split; [reflexivity|]);
      [apply alike_log|]; exact Ha.
  - assert (Hdrop : forall t, filter keep (t ++ [EvStderr s]) = filter keep t)
      by (intros t; rewrite filter_app; simpl; rewrite (Hq s Hs);
          apply app_nil_r).
    destruct (verbose_output st), (verbose_output st');
      (split; [reflexivity|]); (split; [exact Hc|]); (split; [|now right]);
      simpl; rewrite ?Hdrop; exact Ht.
Qed.

Lemma alike_set_errno e st st' :
  alike keep st st' -> alike keep (set_errno e st) (set_errno e st').
Proof.
  intros (Hc & Ht & Hv). split; [|split; [exact Ht | exact Hv]].
  unfold core in *. simpl. congruence.
Qed.

Lemma alike_set_signals n st st' :
  alike keep st st' -> alike keep (set_signals n st) (set_signals n st').
Proof.
  intros (Hc & Ht & Hv). split; [|split; [exact Ht | exact Hv]].
  unfold core in *. simpl. congruence.
Qed.

Lemma alike_set_child_pid p st st' :
  alike keep st st' -> alike keep (set_child_pid p st) (set_child_pid p st').
Proof.
  intros (Hc & Ht & Hv). split; [|split; [exact Ht | exact Hv]].
  unfold core in *. simpl. congruence.
Qed.

Lemma alike_set_wstatus s st st' :
  alike keep st st' -> alike keep (set_wstatus s st) (set_wstatus s st').
Proof.
  intros (Hc & Ht & Hv). split; [|split; [exact Ht | exact Hv]].
  unfold core in *. simpl. congruence.
Qed.

Lemma alike_set_kernel k st st' :
  alike keep st st' -> alike keep (set_kernel k st) (set_kernel k st').
Proof.
  intros (Hc & Ht & Hv). split; [|split; [exact Ht | exact Hv]].
  unfold core in *. simpl. congruence.
Qed.

Lemma wait4_alike pid options k : forall st st', alike keep st st' ->
  fst (wait4 pid options k st) = fst (wait4 pid options k st')
  /\ alike keep (snd (wait4 pid options k st)) (snd (wait4 pid options k st')).
Proof.
  induction k as [|ev k IH]; intros st st' H.
  - split; [reflexivity | now apply alike_set_kernel].
  - destruct ev as [|s|e]; simpl.
    + destruct (Z.land options Wait.WNOHANG =? 0); [now apply IH|].
      split; [reflexivity | now apply alike_set_kernel].
    + split; [reflexivity | now apply alike_set_wstatus, alike_set_kernel].
    + split; [reflexivity | now apply alike_set_errno, alike_set_kernel].
Qed.

Lemma respects_waitpid pid options : respects keep (waitpid pid options).
Proof.
  intros st st' H. unfold waitpid.
  replace (kernel st') with (kernel st)
    by (destruct H as [Hc _]; now injection Hc).
  now apply wait4_alike, alike_log.
Qed.

Lemma respects_TEMP_FAILURE_RETRY fuel (m : M Z) :
  respects keep m -> respects keep (TEMP_FAILURE_RETRY fuel m).
Proof.
  intros Hm. induction fuel as [|fuel IH]; [apply respects_pending|].
  cbn [TEMP_FAILURE_RETRY].
  apply respects_bind; [exact Hm | intros r].
  apply respects_bind;
    [apply respects_gets; intros st st' Hc; now injection Hc | intros e].
  destruct ((r =? -1) && (e =? EINTR)); [exact IH | apply respects_pure].
Qed.

Lemma respects_pause : respects keep pause.
Proof.
  unfold pause.
  apply respects_bind; [apply respects_emit | intros _].
  apply respects_bind;
    [apply respects_gets; intros st st' Hc; now injection Hc | intros [|n]];
    [apply respects_pending|].
  apply respects_bind;
    [apply respects_modify; intros; now apply alike_set_signals | intros _].
  apply respects_bind;
    [apply respects_modify; intros; now apply alike_set_errno | intros _].
  apply respects_pure.
Qed.

Lemma respects_forever {A} fuel (m : M A) :
  respects keep m -> respects keep (forever fuel m).
Proof.
  intros Hm. induction fuel as [|fuel IH]; [apply respects_pending|].
  cbn [forever]. apply respects_bind; [exact Hm | intros _; exact IH].
Qed.

Lemma respects_main_after_wait w rc : respects keep (main_after_wait w rc).
Proof.
  unfold main_after_wait.
  apply respects_bind;
    [apply respects_gets; intros st st' Hc; now injection Hc | intros ws].
  destruct (negb (rc =? 0));
    [destruct (Wait.WIFEXITED ws);
     [destruct (Wait.WEXITSTATUS ws =? 0) | destruct (Wait.WIFSIGNALED ws)]|];
    (apply respects_bind; [|intros _; apply respects_pure]);
    try apply respects_emit.
  now apply respects_debug.
Qed.

Lemma respects_main_run_and_wait w fuel :
  respects keep (main_run_and_wait w fuel).
Proof.
  unfold main_run_and_wait.
  apply respects_bind; [now apply respects_debug | intros _].
  apply respects_bind.
  { unfold posix_spawnp.
    apply respects_bind; [apply respects_emit | intros _].
    destruct (w_spawn w); [|apply respects_pure].
    apply respects_bind; [|intros _; apply respects_pure].
    apply respects_modify. intros. now apply alike_set_child_pid. }
  intros spawned. destruct (negb (spawned =? 0)).
  { apply respects_bind; [apply respects_emit | intros _; apply respects_pure]. }
  apply respects_bind; [now apply respects_debug | intros _].
  apply respects_bind;
    [apply respects_gets; intros st st' Hc; now injection Hc | intros pid].
  apply respects_bind; [|intros rc; apply respects_main_after_wait].
  apply respects_TEMP_FAILURE_RETRY, respects_waitpid.
Qed.

(** Lines 97 to 132, from alike states. *)
Lemma respects_rest_of_main w fuel :
  respects keep
    ((if argc w <? 2 then forever fuel pause else pure tt) ;;
     main_run_and_wait w fuel).
Proof.
  apply respects_bind; [|intros _; apply respects_main_run_and_wait].
  destruct (argc w <? 2);
    [apply respects_forever, respects_pause | apply respects_pure].
Qed.

End Respects.

Lemma attempt_events_audible v bus m reply trying what :
  debug_message trying = true ->
  filter audible (attempt_events v bus m reply trying what)
  = filter audible (attempt_events false bus m reply trying what).
Proof.
  intros Ht. unfold attempt_events. destruct v; [|reflexivity].
  rewrite !filter_app. cbn [dbg filter audible]. rewrite Ht.
  destruct (fst reply <? 0); reflexivity.
Qed.

Lemma inhibit_events_audible w v bus reason app :
  filter audible (inhibit_events w v bus reason app)
  = filter audible (inhibit_events w false bus reason app).
Proof.
  unfold inhibit_events. rewrite !filter_app.
  rewrite !(attempt_events_audible v) by reflexivity. reflexivity.
Qed.

Lemma attempt_events_beside_verdicts v bus m reply reply' trying what :
  filter beside_verdicts (attempt_events v bus m reply trying what)
  = filter beside_verdicts (attempt_events v bus m reply' trying what).
Proof.
  unfold attempt_events. rewrite !filter_app. f_equal. f_equal.
  destruct v, (fst reply <? 0), (fst reply' <? 0); reflexivity.
Qed.

Lemma inhibit_events_beside_verdicts w w' v bus reason app :
  filter beside_verdicts (inhibit_events w v bus reason app)
  = filter beside_verdicts (inhibit_events w' v bus reason app).
Proof.
  unfold inhibit_events. rewrite !filter_app.
  repeat (f_equal; try apply attempt_events_beside_verdicts).
Qed.

(** X9: setting, changing or unsetting [INHIBIT_DEBUG] changes nothing
    but the debug lines: the outcome of the run is the same, and so is the
    trace once those lines are taken out, bus calls, spawn, waits and all
    other output included. *)
Theorem verbosity_changes_only_debug_output w v fuel :
  fst (run (set_debug v w) fuel) = fst (run w fuel)
  /\ filter audible (trace (snd (run (set_debug v w) fuel)))
     = filter audible (trace (snd (run w fuel))).
Proof.
  destruct (Z.lt_ge_cases (fst (w_bus_open w)) 0) as [Hopen | Hopen].
  { rewrite (run_bus_failed (set_debug v w) fuel Hopen).
    rewrite (run_bus_failed w fuel Hopen). split; reflexivity. }
  rewrite (run_bus_opened (set_debug v w) fuel Hopen).
  rewrite (run_bus_opened w fuel Hopen).
  rewrite (bind_done _ _ _ _ _ (request_all_exact (set_debug v w) _ _)).
  rewrite (bind_done _ _ _ _ _ (request_all_exact w _ _)).
  refine (let H := respects_rest_of_main audible w fuel _ _ _ in
          conj (proj1 H) (proj1 (proj2 (proj2 H)))).
  split; [reflexivity|]. split.
  - rewrite !trace_add_trace, !filter_app. f_equal.
    rewrite inhibit_events_audible. symmetry.
    rewrite inhibit_events_audible. reflexivity.
  - right. intros s Hs. simpl. now rewrite Hs.
Qed.

(** X10: what the bus answers changes nothing but the verdict lines
    ([Ok.], [Failed.] and [Failed to inhibit ...]): the outcome of the run
    is the same, and so are the bus calls, the spawn, the waits and all
    other output. *)
Theorem bus_replies_change_only_the_verdicts w r fuel :
  fst (run (with_bus_reply r w) fuel) = fst (run w fuel)
  /\ filter beside_verdicts (trace (snd (run (with_bus_reply r w) fuel)))
     = filter beside_verdicts (trace (snd (run w fuel))).
Proof.
  destruct (Z.lt_ge_cases (fst (w_bus_open w)) 0) as [Hopen | Hopen].
  { rewrite (run_bus_failed (with_bus_reply r w) fuel Hopen).
    rewrite (run_bus_failed w fuel Hopen). split; reflexivity. }
  rewrite (run_bus_opened (with_bus_reply r w) fuel Hopen).
  rewrite (run_bus_opened w fuel Hopen).
  rewrite (bind_done _ _ _ _ _ (request_all_exact (with_bus_reply r w) _ _)).
  rewrite (bind_done _ _ _ _ _ (request_all_exact w _ _)).
  refine (let H := respects_rest_of_main beside_verdicts w fuel _ _ _ in
          conj (proj1 H) (proj1 (proj2 (proj2 H)))).
  split; [reflexivity|]. split; [|now left].
  rewrite !trace_add_trace, !filter_app. f_equal.
  apply inhibit_events_beside_verdicts.
Qed.

(** The trace of a run that got a bus: start-up, the three attempts, and
    then only pauses (no command) or only events of the supervisor. *)
Lemma run_shape w fuel : 0 <= fst (w_bus_open w) ->
  exists rest,
    trace (snd (run w fuel))
    = trace (configured w)
      ++ inhibit_events w (verbose_of w) (snd (w_bus_open w))
                        (Some (reason_of w)) (application_of w)
      ++ rest
    /\ if argc w <? 2
       then Forall (fun e => e = EvPause) rest
       else Forall (fun e => with_child e = true) rest.
Proof.
  intros Hopen. rewrite (run_bus_opened w fuel Hopen).
  rewrite (bind_done _ _ _ _ _ (request_all_exact w _ _)).
  destruct (argc w <? 2).
  - destruct (forever_pause fuel
                (add_trace (inhibit_events w (verbose_output (configured w))
                              (snd (w_bus_open w))
                              (inhibit_reason (configured w))
                              (application (configured w))) (configured w)))
      as (st' & E & Hadds & _).
    rewrite (bind_pending _ _ _ _ E). cbn [snd].
    apply adds_inv in Hadds as (rest & -> & Hrest).
    exists rest. split; [|exact Hrest].
    rewrite trace_add_trace, <- app_assoc. reflexivity.
  - unfold bind at 1, pure.
    match goal with
    | |- context [main_run_and_wait w fuel ?s] =>
        destruct (run_and_wait_any w fuel s) as [Hadds _]
    end.
    apply adds_inv in Hadds as (rest & -> & Hrest).
    exists rest. split; [|exact Hrest].
    rewrite trace_add_trace, <- app_assoc. reflexivity.
Qed.

Lemma not_in_quiet_attempt e bus m reply trying what :
  is_bus_call e = false ->
  e <> EvStderr ("Failed to inhibit " +++ what +++ ": "
                 +++ fmt_s (snd reply) +++ nl) ->
  ~ In e (attempt_events false bus m reply trying what).
Proof.
  intros Hb Hm. unfold attempt_events, dbg.
  destruct (fst reply <? 0); simpl; intros H;
    repeat match goal with
           | H : _ \/ _ |- _ => destruct H as [H | H]
           end;
    try contradiction; subst; try (simpl in Hb; discriminate Hb).
  exact (Hm eq_refl).
Qed.

(** X11: the debug lines are written exactly when [INHIBIT_DEBUG] is in
    the environment, whatever its value, the empty string included: the
    announcement of the first attempt is on the error stream if and only
    if the variable is set. *)
Theorem debug_lines_iff_INHIBIT_DEBUG w fuel :
  0 <= fst (w_bus_open w) ->
  In (EvStderr
        "Trying to inhibit idle via org.freedesktop.portal.Inhibit interface: ")
     (trace (snd (run w fuel)))
  <-> exists value, w_getenv w "INHIBIT_DEBUG" = Some value.
Proof.
  intros Hopen. destruct (run_shape w fuel Hopen) as (rest & -> & Hrest).
  unfold verbose_of, inhibit_events.
  destruct (w_getenv w "INHIBIT_DEBUG") as [value|].
  - split; [intros _; now exists value | intros _].
    rewrite !in_app_iff. right. left. left. unfold attempt_events. now left.
  - split; [|intros [value H]; discriminate].
    rewrite !in_app_iff. intros [H | [[H | [H | H]] | H]].
    + exfalso. simpl in H. intuition discriminate.
    + exfalso. revert H. apply not_in_quiet_attempt; [reflexivity | discriminate].
    + exfalso. revert H. apply not_in_quiet_attempt; [reflexivity | discriminate].
    + exfalso. revert H. apply not_in_quiet_attempt; [reflexivity | discriminate].
    + exfalso. destruct (argc w <? 2); rewrite Forall_forall in Hrest;
        apply Hrest in H; discriminate.
Qed.

Lemma debug_lines_iff_INHIBIT_DEBUG_witness :
  In (EvStderr
        "Trying to inhibit idle via org.freedesktop.portal.Inhibit interface: ")
     (trace (snd (run (set_debug (Some EmptyString) sample_world) 2)))
  <-> exists value,
        w_getenv (set_debug (Some EmptyString) sample_world) "INHIBIT_DEBUG"
        = Some value.
Proof.
  apply (debug_lines_iff_INHIBIT_DEBUG
           (set_debug (Some EmptyString) sample_world) 2).
  simpl. lia.
Defined.

(** X12: the program pauses only when it has no command: a run with a
    command never calls [pause], and a run without one calls nothing else
    once the three attempts are made. *)
Theorem pause_only_without_command w fuel :
  0 <= fst (w_bus_open w) ->
  ((2 <= List.length (w_argv w))%nat ->
   ~ In EvPause (trace (snd (run w fuel))))
  /\ ((List.length (w_argv w) < 2)%nat ->
      exists n,
        trace (snd (run w fuel))
        = trace (configured w)
          ++ inhibit_events w (verbose_of w) (snd (w_bus_open w))
                            (Some (reason_of w)) (application_of w)
          ++ repeat EvPause n).
Proof.
  intros Hopen. destruct (run_shape w fuel Hopen) as (rest & -> & Hrest).
  split; intros Hargc.
  - replace (argc w <? 2) with false in Hrest
      by (symmetry; apply Z.ltb_ge; unfold argc; lia).
    rewrite !in_app_iff. intros [H | [H | H]].
    + simpl in H. intuition discriminate.
    + pose proof (inhibit_events_chatter w (verbose_of w) (snd (w_bus_open w))
                    (Some (reason_of w)) (application_of w)) as Hc.
      rewrite Forall_forall in Hc. apply Hc in H. discriminate.
    + rewrite Forall_forall in Hrest. apply Hrest in H. discriminate.
  - replace (argc w <? 2) with true in Hrest
      by (symmetry; apply Z.ltb_lt; unfold argc; lia).
    exists (List.length rest). do 2 f_equal.
    apply Forall_eq_repeat. eapply Forall_impl; [|exact Hrest].
    intros e ->. reflexivity.
Qed.

Lemma pause_only_without_command_witness :
  ~ In EvPause (trace (snd (run sample_world 2))).
Proof.
  apply (proj1 (pause_only_without_command sample_world 2 ltac:(simpl; lia))).
  simpl. lia.
Defined.
